(** * Support-request workflows of [task4_langgraph_workflow]

    A shallow embedding of the three workflow scripts

    - [support_workflow.py]  (stage functions, routing predicates, the
      LangGraph wiring and [MockSupportWorkflow]),
    - [hf_workflow.py]       ([GeminiWorkflow]),
    - [simple_workflow.py]   ([WorkflowAgent]),

    of the scripts built on the same call to the generation service,
    [support_agent.py], [simple_crew.py] and [sales_conversation.py],
    and of [simple_conversation.py],
    together with the Python primitives they rely on ([str.lower],
    [str.strip], [in] on strings, [len], [hash], f-string formatting of
    integers).

    Text is modelled by [string]: a sequence of code points below 256
    (the Latin-1 range), on which [str.lower] works character by
    character.  Python integers are [Z]. *)

From Stdlib Require Import ZArith String Ascii List Bool Lia DecimalString.
From stdpp Require Import gmap strings.

Local Open Scope string_scope.
Local Open Scope Z_scope.

(** ** Python string primitives *)

Module PyStr.

(** [len(s)] *)
Definition len (s : string) : Z := Z.of_nat (String.length s).

(** Truthiness of a [str]: the empty string is falsy. *)
Definition truthy (s : string) : bool :=
  match s with
  | EmptyString => false
  | String _ _ => true
  end.

(** Truthiness of an [Optional[str]]: [None] and [""] are falsy. *)
Definition truthy_opt (o : option string) : bool :=
  match o with
  | None => false
  | Some s => truthy s
  end.

(** [x or d] for an [Optional[str]] [x]. *)
Definition or_default (o : option string) (d : string) : string :=
  match o with
  | Some (String c s) => String c s
  | _ => d
  end.

(** How an f-string renders an [Optional[str]] field. *)
Definition fmt_opt (o : option string) : string :=
  match o with
  | None => "None"
  | Some s => s
  end.

(** [str(n)] for an integer. *)
Definition str_of_int (n : Z) : string :=
  NilZero.string_of_int (Z.to_int n).

(** The line feed written [\n] in the sources. *)
Definition nl : string := String (ascii_of_nat 10) EmptyString.

(** [c.isspace()] for a code point below 256. *)
Definition isspace (c : ascii) : bool :=
  let n := nat_of_ascii c in
  ((9 <=? n) && (n <=? 13) || (28 <=? n) && (n <=? 32)
   || (n =? 133) || (n =? 160))%nat.

(** [c.lower()] for a code point below 256: the ASCII capitals and the
    Latin-1 capitals (all of 0xC0-0xDE but the multiplication sign). *)
Definition lower_char (c : ascii) : ascii :=
  let n := nat_of_ascii c in
  if ((65 <=? n) && (n <=? 90)
      || (192 <=? n) && (n <=? 222) && negb (n =? 215))%nat
  then ascii_of_nat (n + 32)
  else c.

(** [s.lower()] *)
Fixpoint lower (s : string) : string :=
  match s with
  | EmptyString => EmptyString
  | String c t => String (lower_char c) (lower t)
  end.

(** [s.lstrip()] *)
Fixpoint lstrip (s : string) : string :=
  match s with
  | EmptyString => EmptyString
  | String c t => if isspace c then lstrip t else s
  end.

(** [s.rstrip()]: a character is dropped when it is a space and
    everything after it has been dropped. *)
Fixpoint rstrip (s : string) : string :=
  match s with
  | EmptyString => EmptyString
  | String c t =>
      match rstrip t with
      | EmptyString => if isspace c then EmptyString else String c EmptyString
      | r => String c r
      end
  end.

(** [s.strip()] *)
Definition strip (s : string) : string := rstrip (lstrip s).

(** [s.startswith(p)] *)
Fixpoint startswith (p s : string) : bool :=
  match p, s with
  | EmptyString, _ => true
  | String _ _, EmptyString => false
  | String a p', String b s' => Ascii.eqb a b && startswith p' s'
  end.

(** [needle in hay] *)
Fixpoint contains (needle hay : string) : bool :=
  startswith needle hay
  || match hay with
     | EmptyString => false
     | String _ t => contains needle t
     end.

(** [any(word in message for word in words)] *)
Definition any_in (words : list string) (message : string) : bool :=
  existsb (fun word => contains word message) words.

(** [x in labels] for an [Optional[str]] [x] and a list of labels. *)
Definition opt_in (x : option string) (labels : list string) : bool :=
  match x with
  | None => false
  | Some l => existsb (String.eqb l) labels
  end.

(** [c * n] for a one-character string [c]. *)
Fixpoint repeat_char (c : ascii) (n : nat) : string :=
  match n with
  | O => EmptyString
  | S k => String c (repeat_char c k)
  end.

Definition all_space (s : string) : bool :=
  forallb isspace (list_ascii_of_string s).

End PyStr.

(** ** [hash] on [str]

    CPython hashes the bytes of a string with SipHash-1-3 under a
    128-bit key drawn once per process (all zero under
    [PYTHONHASHSEED=0]); the empty string hashes to 0 and the result
    [-1] is replaced by [-2]. *)

Module PyHash.

Definition mask64 : Z := Z.ones 64.
Definition wrap (x : Z) : Z := Z.land x mask64.
Definition rotl (x b : Z) : Z :=
  wrap (Z.lor (Z.shiftl x b) (Z.shiftr x (64 - b))).

Record sip := Sip { v0 : Z; v1 : Z; v2 : Z; v3 : Z }.

Definition half_round (a b c d s t : Z) : Z * Z * Z * Z :=
  let a := wrap (a + b) in
  let c := wrap (c + d) in
  let b := Z.lxor (rotl b s) a in
  let d := Z.lxor (rotl d t) c in
  (rotl a 32, b, c, d).

Definition sip_round (v : sip) : sip :=
  let '(a, b, c, d) := half_round (v0 v) (v1 v) (v2 v) (v3 v) 13 16 in
  let '(c, b, a, d) := half_round c b a d 17 21 in
  Sip a b c d.

Definition absorb (v : sip) (m : Z) : sip :=
  let v := Sip (v0 v) (v1 v) (v2 v) (Z.lxor (v3 v) m) in
  let v := sip_round v in
  Sip (Z.lxor (v0 v) m) (v1 v) (v2 v) (v3 v).

(** Little-endian value of at most eight bytes. *)
Fixpoint le_word (bs : list Z) : Z :=
  match bs with
  | [] => 0
  | b :: r => Z.lor b (Z.shiftl (le_word r) 8)
  end.

Fixpoint blocks (fuel : nat) (v : sip) (bs : list Z) : sip * list Z :=
  match fuel with
  | O => (v, bs)
  | S k =>
      match bs with
      | b0 :: b1 :: b2 :: b3 :: b4 :: b5 :: b6 :: b7 :: r =>
          blocks k (absorb v (le_word [b0; b1; b2; b3; b4; b5; b6; b7])) r
      | _ => (v, bs)
      end
  end.

Definition siphash13 (k0 k1 : Z) (bs : list Z) : Z :=
  let n := Z.of_nat (length bs) in
  let v := Sip (Z.lxor k0 0x736f6d6570736575) (Z.lxor k1 0x646f72616e646f6d)
               (Z.lxor k0 0x6c7967656e657261) (Z.lxor k1 0x7465646279746573) in
  let '(v, tail) := blocks (length bs) v bs in
  let b := Z.lor (wrap (Z.shiftl n 56)) (le_word tail) in
  let v := absorb v b in
  let v := Sip (v0 v) (v1 v) (Z.lxor (v2 v) 0xff) (v3 v) in
  let v := sip_round (sip_round (sip_round v)) in
  Z.lxor (Z.lxor (v0 v) (v1 v)) (Z.lxor (v2 v) (v3 v)).

(** A 64-bit pattern read as a signed [Py_hash_t]. *)
Definition signed64 (x : Z) : Z :=
  if x <? 2 ^ 63 then x else x - 2 ^ 64.

Definition bytes_of (s : string) : list Z :=
  map (fun c => Z.of_nat (nat_of_ascii c)) (list_ascii_of_string s).

(** [hash(s)] in a process whose hash key is [(k0, k1)]. *)
Definition str_hash (k0 k1 : Z) (s : string) : Z :=
  match s with
  | EmptyString => 0
  | _ =>
      let x := signed64 (siphash13 k0 k1 (bytes_of s)) in
      if x =? -1 then -2 else x
  end.

(** [hash] with hash randomisation switched off. *)
Definition hash_seed0 : string -> Z := str_hash 0 0.


End PyHash.

(** ** [support_workflow.py] *)

Module SupportWorkflow.
Import PyStr.

(** [SupportWorkflowState]: the dictionary threaded through the nodes.
    Its keys are fixed by the [TypedDict], so it is a record. *)
Record SupportWorkflowState := mkState {
  request_id : string;
  user_message : string;
  category : option string;
  priority : option string;
  response : option string;
  escalated : bool;
  ticket_created : bool;
  error_message : option string;
  step_count : Z
}.

(** Assignments [state[key] = value]. *)
Definition set_category (s : SupportWorkflowState) (v : option string) :=
  mkState (request_id s) (user_message s) v (priority s) (response s)
          (escalated s) (ticket_created s) (error_message s) (step_count s).
Definition set_priority (s : SupportWorkflowState) (v : option string) :=
  mkState (request_id s) (user_message s) (category s) v (response s)
          (escalated s) (ticket_created s) (error_message s) (step_count s).
Definition set_response (s : SupportWorkflowState) (v : option string) :=
  mkState (request_id s) (user_message s) (category s) (priority s) v
          (escalated s) (ticket_created s) (error_message s) (step_count s).
Definition set_escalated (s : SupportWorkflowState) (v : bool) :=
  mkState (request_id s) (user_message s) (category s) (priority s) (response s)
          v (ticket_created s) (error_message s) (step_count s).
Definition set_ticket_created (s : SupportWorkflowState) (v : bool) :=
  mkState (request_id s) (user_message s) (category s) (priority s) (response s)
          (escalated s) v (error_message s) (step_count s).
Definition set_error_message (s : SupportWorkflowState) (v : option string) :=
  mkState (request_id s) (user_message s) (category s) (priority s) (response s)
          (escalated s) (ticket_created s) v (step_count s).
Definition set_step_count (s : SupportWorkflowState) (v : Z) :=
  mkState (request_id s) (user_message s) (category s) (priority s) (response s)
          (escalated s) (ticket_created s) (error_message s) v.

(** [state["step_count"] = state.get("step_count", 0) + 1] *)
Definition bump (s : SupportWorkflowState) : SupportWorkflowState :=
  set_step_count s (step_count s + 1).

(** *** Workflow nodes *)

Definition validate_request (state : SupportWorkflowState) : SupportWorkflowState :=
  let message := user_message state in
  if negb (truthy message) || (len (strip message) =? 0) then
    set_error_message state (Some "Message is empty")
  else if len message <? 2 then
    set_error_message state (Some "Message too short")
  else if len message >? 1000 then
    set_error_message state (Some "Message too long (max 1000 characters)")
  else bump state.

Definition authentication_words := ["password"; "login"; "access"].
Definition billing_words := ["billing"; "payment"; "invoice"].
Definition technical_words := ["bug"; "error"; "crash"; "broken"].
Definition complaint_words := ["angry"; "frustrated"; "terrible"].

Definition categorize_request (state : SupportWorkflowState) : SupportWorkflowState :=
  let message := lower (user_message state) in
  let state :=
    if any_in authentication_words message then
      set_priority (set_category state (Some "authentication")) (Some "medium")
    else if any_in billing_words message then
      set_priority (set_category state (Some "billing")) (Some "high")
    else if any_in technical_words message then
      set_priority (set_category state (Some "technical")) (Some "high")
    else if any_in complaint_words message then
      set_priority (set_category state (Some "complaint")) (Some "urgent")
    else
      set_priority (set_category state (Some "general")) (Some "low") in
  bump state.

(** The [responses] table of [generate_response], with the default of
    [responses.get]. *)
Definition responses_get (category : string) : string :=
  if String.eqb category "authentication" then
    "To reset your password, please click 'Forgot Password' on the login page and follow the instructions."
  else if String.eqb category "billing" then
    "For billing inquiries, please check your account settings or contact our billing team at billing@company.com"
  else if String.eqb category "technical" then
    "I've logged this technical issue for our engineering team. You should receive an update within 24 hours."
  else if String.eqb category "complaint" then
    "I sincerely apologize for your experience. Let me escalate this to our customer success team immediately."
  else if String.eqb category "general" then
    "Thank you for contacting us. I'll make sure you get the help you need."
  else "Thank you for your message. We'll get back to you soon.".

Definition generate_response (state : SupportWorkflowState) : SupportWorkflowState :=
  let category := or_default (category state) "general" in
  bump (set_response state (Some (responses_get category))).

Definition escalation_words := ["manager"; "supervisor"; "human"].

Definition escalation_needed (state : SupportWorkflowState) : bool :=
  opt_in (priority state) ["urgent"; "high"]
  || opt_in (category state) ["complaint"; "technical"]
  || any_in escalation_words (lower (user_message state)).

Definition check_escalation_needed (state : SupportWorkflowState) : SupportWorkflowState :=
  bump (set_escalated state (escalation_needed state)).

Definition handle_error (state : SupportWorkflowState) : SupportWorkflowState :=
  let state :=
    set_response state
      (Some ("I'm sorry, there was an issue processing your request: "
             +:+ fmt_opt (error_message state)
             +:+ ". Please try again or contact support directly.")) in
  bump (set_escalated state true).

Definition send_response (state : SupportWorkflowState) : SupportWorkflowState :=
  bump state.

(** *** Conditional routing functions *)

Inductive route := Escalate | Respond | Error | Continue.

Definition should_escalate (state : SupportWorkflowState) : route :=
  if escalated state then Escalate else Respond.

Definition has_error (state : SupportWorkflowState) : route :=
  if truthy_opt (error_message state) then Error else Continue.

(** The state both [process_request] and the demo start from. *)
Definition initial_state (request_id user_message : string) : SupportWorkflowState :=
  mkState request_id user_message None None None false false None 0.

(** The nodes of the graph built by [create_support_workflow]. *)
Inductive node :=
| Validate | Categorize | GenerateResponse | CheckEscalation
| CreateTicket | SendResponse | HandleError.

Section WithHash.
(** The interpreter's [hash] on strings, fixed for the life of a
    process. *)
Variable hash : string -> Z.

Definition ticket_id (state : SupportWorkflowState) : string :=
  "TICKET-" +:+ str_of_int (hash (user_message state) mod 10000).

Definition ticket_notice (state : SupportWorkflowState) : string :=
  nl +:+ nl +:+ "Support ticket " +:+ ticket_id state
  +:+ " has been created. A human agent will contact you within 2 hours.".

Definition create_ticket (state : SupportWorkflowState) : SupportWorkflowState :=
  let notice := ticket_notice state in
  let state := set_ticket_created state true in
  let current_response := or_default (response state) "" in
  bump (set_response state (Some (current_response +:+ notice))).

(** *** [MockSupportWorkflow.process_request]

    No stage raises on a state whose fields have their declared
    types, so the [except] handler is never entered. *)
Definition process_request (request_id user_message : string) : SupportWorkflowState :=
  let state := initial_state request_id user_message in
  let state := validate_request state in
  if truthy_opt (error_message state) then handle_error state
  else
    let state := categorize_request state in
    let state := generate_response state in
    let state := check_escalation_needed state in
    let state := if escalated state then create_ticket state else state in
    send_response state.

(** *** The graph of [create_support_workflow] *)

(** [add_node]: the function run at each node. *)
Definition stage (n : node) : SupportWorkflowState -> SupportWorkflowState :=
  match n with
  | Validate => validate_request
  | Categorize => categorize_request
  | GenerateResponse => generate_response
  | CheckEscalation => check_escalation_needed
  | CreateTicket => create_ticket
  | SendResponse => send_response
  | HandleError => handle_error
  end.

(** [add_edge] and [add_conditional_edges]: the node that follows
    [n] once its function has produced [state]; [None] is [END]. *)
Definition successor (n : node) (state : SupportWorkflowState) : option node :=
  match n with
  | Validate =>
      match has_error state with
      | Error => Some HandleError
      | _ => Some Categorize
      end
  | Categorize => Some GenerateResponse
  | GenerateResponse => Some CheckEscalation
  | CheckEscalation =>
      match should_escalate state with
      | Escalate => Some CreateTicket
      | _ => Some SendResponse
      end
  | CreateTicket => Some SendResponse
  | SendResponse => None
  | HandleError => None
  end.

(** Running the compiled graph from node [n]: the nodes visited, each
    with the state it produced.  [fuel] bounds the number of nodes run;
    the walk stops early when it is used up. *)
Fixpoint walk (fuel : nat) (n : node) (state : SupportWorkflowState)
  : list (node * SupportWorkflowState) :=
  match fuel with
  | O => []
  | S k =>
      let state' := stage n state in
      (n, state') ::
      match successor n state' with
      | None => []
      | Some m => walk k m state'
      end
  end.

(** [workflow.invoke(initial_state)]: the state at [END], or [None]
    when [fuel] nodes did not reach it.  The script passes no bound of
    its own to [invoke]; [fuel] counts the nodes that may run. *)
Fixpoint invoke_from (fuel : nat) (n : node) (state : SupportWorkflowState)
  : option SupportWorkflowState :=
  match fuel with
  | O => None
  | S k =>
      let state' := stage n state in
      match successor n state' with
      | None => Some state'
      | Some m => invoke_from k m state'
      end
  end.

(** The graph has seven nodes and no cycle: seven steps suffice. *)
Definition invoke (state : SupportWorkflowState) : option SupportWorkflowState :=
  invoke_from 7 Validate state.

(** The states a run passes through: the initial one, then the one
    produced by each node in turn. *)
Definition run_states (request_id user_message : string) : list SupportWorkflowState :=
  let s0 := initial_state request_id user_message in
  s0 :: map snd (walk 7 Validate s0).

(** The nodes a run executes, in order. *)
Definition run_path (request_id user_message : string) : list node :=
  map fst (walk 7 Validate (initial_state request_id user_message)).

End WithHash.

End SupportWorkflow.

(** Notions used to state the properties of [support_workflow.py]. *)

Module SupportNotions.
Import PyStr SupportWorkflow.

(** The messages [validate_request] lets through, read off its result
    on a fresh state. *)
Definition passes (user_message : string) : bool :=
  negb (truthy_opt (error_message (validate_request (initial_state "" user_message)))).

(** The apology written by [handle_error] for the error text [e]. *)
Definition apology (e : string) : string :=
  "I'm sorry, there was an issue processing your request: " +:+ e
  +:+ ". Please try again or contact support directly.".

(** The notice [create_ticket] appends for the ticket number [n]. *)
Definition notice_for (n : Z) : string :=
  nl +:+ nl +:+ "Support ticket TICKET-" +:+ str_of_int n
  +:+ " has been created. A human agent will contact you within 2 hours.".

(** The state after [Categorize], [Respond] and [CheckEscalation] on a
    run that passed validation. *)
Definition checked (rid m : string) : SupportWorkflowState :=
  check_escalation_needed
    (generate_response (categorize_request (bump (initial_state rid m)))).

(** A flag that, once [true], stays [true] along the list. *)
Fixpoint never_cleared (flags : list bool) : bool :=
  match flags with
  | [] => true
  | b :: rest => (if b then forallb id rest else true) && never_cleared rest
  end.

(** The category-to-priority table in the words of the specification,
    to be compared with what [categorize_request] assigns. *)
Definition priority_table : list (string * string) :=
  [("complaint", "urgent"); ("technical", "high"); ("billing", "high");
   ("authentication", "medium"); ("general", "low")].

(** Two states that differ at most in [request_id], and, when
    [with_response] is off, in [response]. *)
Definition agree (with_response : bool) (s s' : SupportWorkflowState) : Prop :=
  user_message s = user_message s'
  /\ category s = category s'
  /\ priority s = priority s'
  /\ (with_response = true -> response s = response s')
  /\ escalated s = escalated s'
  /\ ticket_created s = ticket_created s'
  /\ error_message s = error_message s'
  /\ step_count s = step_count s'.

End SupportNotions.

(** ** Exceptions and the generation service *)

Module Exc.

(** The exceptions the workflows can meet; every one of them derives
    from [Exception]. *)
Inductive exception :=
| RequestException (what : string)   (* [requests.post]: no connection, timeout, ... *)
| HTTPError (status : Z)             (* [raise_for_status] *)
| JSONDecodeError                    (* [response.json()] *)
| KeyError
| IndexError
| TypeError
| AttributeError
| RuntimeError (what : string).

(** A computation that returns a value or raises. *)
Inductive result (A : Type) :=
| Return (a : A)
| Raise (e : exception).
Arguments Return {A} a.
Arguments Raise {A} e.

Definition bind {A B} (c : result A) (k : A -> result B) : result B :=
  match c with
  | Return a => k a
  | Raise e => Raise e
  end.

(** [try: body  except Exception as e: handler] *)
Definition try_except {A} (body : result A) (handler : exception -> result A) : result A :=
  match body with
  | Return a => Return a
  | Raise e => handler e
  end.

Definition raises {A} (c : result A) : Prop := exists e, c = Raise e.

End Exc.

Declare Scope exc_scope.
Delimit Scope exc_scope with exc.
Notation "x <- c ;; k" := (Exc.bind c (fun x => k))
  (at level 100, c at next level, right associativity) : exc_scope.
Notation "'do' c ;; k" := (Exc.bind c (fun _ => k))
  (at level 100, c at next level, right associativity) : exc_scope.

Module Gemini.
Import Exc PyStr.
Local Open Scope exc_scope.

(** A decoded JSON document.  The workflows only test numbers for
    truth, so a number records whether it is non-zero. *)
#[warnings="-register-all"]
Inductive json :=
| JNull
| JBool (b : bool)
| JNum (nonzero : bool)
| JStr (s : string)
| JArr (items : list json)
| JObj (fields : list (string * json)).

(** What [requests.post] does: it raises, or it returns a response
    with a status code and a body that parses as JSON or does not. *)
Inductive http_reply :=
| NoReply (what : string)
| Reply (status : Z) (body : option json).

(** The service as the workflow sees it: the reply to each prompt. *)
Definition service := string -> http_reply.

Definition post (net : service) (prompt : string) : result (Z * option json) :=
  match net prompt with
  | NoReply what => Raise (RequestException what)
  | Reply status body => Return (status, body)
  end.

Definition raise_for_status (status : Z) : result unit :=
  if (400 <=? status) && (status <? 600) then Raise (HTTPError status)
  else Return tt.

Definition response_json (body : option json) : result json :=
  match body with
  | Some j => Return j
  | None => Raise JSONDecodeError
  end.

Fixpoint assoc (key : string) (fields : list (string * json)) : option json :=
  match fields with
  | [] => None
  | (k, v) :: rest => if String.eqb k key then Some v else assoc key rest
  end.

(** [v[key]] for a string key *)
Definition subscript_key (v : json) (key : string) : result json :=
  match v with
  | JObj fields =>
      match assoc key fields with
      | Some x => Return x
      | None => Raise KeyError
      end
  | _ => Raise TypeError
  end.

(** [v[0]] *)
Definition subscript_0 (v : json) : result json :=
  match v with
  | JArr (x :: _) => Return x
  | JArr [] => Raise IndexError
  | JStr (String c _) => Return (JStr (String c EmptyString))
  | JStr EmptyString => Raise IndexError
  | JObj _ => Raise KeyError
  | _ => Raise TypeError
  end.

(** [v.get(key, default)] *)
Definition get (v : json) (key : string) (default : json) : result json :=
  match v with
  | JObj fields =>
      match assoc key fields with
      | Some x => Return x
      | None => Return default
      end
  | _ => Raise AttributeError
  end.

(** [v.strip()] *)
Definition strip_json (v : json) : result string :=
  match v with
  | JStr s => Return (strip s)
  | _ => Raise AttributeError
  end.

(** Truth value of a JSON value in an [if]. *)
Definition truthy_json (v : json) : bool :=
  match v with
  | JNull => false
  | JBool b => b
  | JNum nonzero => nonzero
  | JStr s => truthy s
  | JArr items => match items with [] => false | _ => true end
  | JObj fields => match fields with [] => false | _ => true end
  end.

(** [result["candidates"][0].get("content", {}).get("parts", [])] *)
Definition candidate_parts (result : json) : Exc.result json :=
  candidates <- subscript_key result "candidates" ;;
  first <- subscript_0 candidates ;;
  content <- get first "content" (JObj []) ;;
  get content "parts" (JArr []).

(** [parts[0].get("text", "").strip()] *)
Definition first_text (parts : json) : Exc.result string :=
  part <- subscript_0 parts ;;
  text <- get part "text" (JStr "") ;;
  strip_json text.

(** The request shared by both scripts, up to [response.json()]. *)
Definition ask (net : service) (prompt : string) : Exc.result json :=
  reply <- post net prompt ;;
  do raise_for_status (fst reply) ;;
  response_json (snd reply).

End Gemini.

(** ** [hf_workflow.py] *)

Module HfWorkflow.
Import Exc PyStr Gemini.
Local Open Scope exc_scope.

Record WorkflowState := mkState {
  message : string;
  category : option string;
  priority : option string;
  response : option string;
  escalated : bool
}.

(** [WorkflowState(message)] *)
Definition new_state (message : string) : WorkflowState :=
  mkState message None None None false.

Definition set_category (s : WorkflowState) (v : option string) :=
  mkState (message s) v (priority s) (response s) (escalated s).
Definition set_priority_field (s : WorkflowState) (v : option string) :=
  mkState (message s) (category s) v (response s) (escalated s).
Definition set_response (s : WorkflowState) (v : option string) :=
  mkState (message s) (category s) (priority s) v (escalated s).
Definition set_escalated (s : WorkflowState) (v : bool) :=
  mkState (message s) (category s) (priority s) (response s) v.

(** [GeminiWorkflow]: [api_url] is fixed by [api_key]; the service
    reached through it is the [net] argument of the methods. *)
Record GeminiWorkflow := { api_key : string; use_llm : bool }.

Definition categorize (state : WorkflowState) : WorkflowState :=
  let message_lower := lower (message state) in
  if any_in ["password"; "login"; "auth"] message_lower then
    set_category state (Some "authentication")
  else if any_in ["bill"; "payment"; "charge"] message_lower then
    set_category state (Some "billing")
  else if any_in ["bug"; "error"; "broken"] message_lower then
    set_category state (Some "technical")
  else set_category state (Some "general").

Definition urgency_words := ["urgent"; "asap"; "critical"].

Definition set_priority (state : WorkflowState) : WorkflowState :=
  let message_lower := lower (message state) in
  if any_in urgency_words message_lower then
    set_priority_field state (Some "high")
  else if opt_in (category state) ["billing"; "technical"] then
    set_priority_field state (Some "medium")
  else set_priority_field state (Some "low").

Definition prompt_of (state : WorkflowState) : string :=
  "You are a helpful support agent. Customer message: '" +:+ message state
  +:+ "' (Category: " +:+ fmt_opt (category state)
  +:+ ", Priority: " +:+ fmt_opt (priority state)
  +:+ "). Provide a brief, helpful response (1-2 sentences).".

Definition _get_llm_response (net : service) (state : WorkflowState) : result string :=
  result <- ask net (prompt_of state) ;;
  parts <- candidate_parts result ;;
  if truthy_json parts then first_text parts
  else Raise (RuntimeError "Invalid response").

Definition _get_fallback_response (state : WorkflowState) : string :=
  let key := or_default (category state) "" in
  if String.eqb key "authentication" then
    "To reset your password, click 'Forgot Password' on the login page."
  else if String.eqb key "billing" then
    "For billing questions, contact billing@company.com or check your account settings."
  else if String.eqb key "technical" then
    "Please describe the issue in detail and we'll investigate. You can also check our troubleshooting guide."
  else if String.eqb key "general" then
    "Thanks for contacting us. How can we help you today?"
  else "We're here to help!".

Definition fallback (state : WorkflowState) : result WorkflowState :=
  Return (set_response state (Some (_get_fallback_response state))).

Definition generate_response (self : GeminiWorkflow) (net : service)
    (state : WorkflowState) : result WorkflowState :=
  if use_llm self then
    try_except
      (text <- _get_llm_response net state ;;
       Return (set_response state (Some text)))
      (fun _ => fallback state)
  else fallback state.

Definition escalation_notice : string :=
  nl +:+ nl +:+ "I'm escalating this to a senior agent who will contact you shortly.".

Definition check_escalation (state : WorkflowState) : WorkflowState :=
  let message_lower := lower (message state) in
  if any_in ["angry"; "frustrated"; "manager"] message_lower then
    let state := set_escalated state true in
    if truthy_opt (response state) then
      set_response state (Some (fmt_opt (response state) +:+ escalation_notice))
    else state
  else state.

Definition run (self : GeminiWorkflow) (net : service) (message : string)
    : result WorkflowState :=
  let state := new_state message in
  let state := categorize state in
  let state := set_priority state in
  state <- generate_response self net state ;;
  Return (check_escalation state).

End HfWorkflow.

(** ** [simple_workflow.py] *)

Module SimpleWorkflow.
Import Exc PyStr Gemini.
Local Open Scope exc_scope.

(** [WorkflowState.data]: a dictionary from keys to strings. *)
Record WorkflowState := { data : gmap string string }.

Record WorkflowAgent := { api_key : string; use_llm : bool }.

(** [state.data[key] = value] *)
Definition store (state : WorkflowState) (key value : string) : WorkflowState :=
  {| data := <[key := value]> (data state) |}.

(** [state.data.get(key, default)] *)
Definition data_get (state : WorkflowState) (key default : string) : string :=
  match data state !! key with
  | Some v => v
  | None => default
  end.

Definition validate_input (state : WorkflowState) : WorkflowState :=
  if len (data_get state "message" "") <? 5 then
    store state "error" "Message too short"
  else state.

Definition categorize_request (state : WorkflowState) : WorkflowState :=
  let message := lower (data_get state "message" "") in
  if contains "password" message then store state "category" "auth"
  else if contains "billing" message then store state "category" "billing"
  else store state "category" "general".

Definition prompt_of (state : WorkflowState) : string :=
  let message := data_get state "message" "" in
  let category := data_get state "category" "" in
  "Customer message: '" +:+ message +:+ "' (Category: " +:+ category
  +:+ "). Provide a brief, helpful support response (1-2 sentences).".

(** The [responses] dictionary of the fallback. *)
Definition responses : gmap string string :=
  <["auth" := "Reset your password on the login page"]>
  (<["billing" := "Contact billing@company.com"]>
  (<["general" := "Thanks for contacting us"]> ∅)).

(** [responses.get(category, "We'll help you")] where [category] is
    [state.data.get("category")]. *)
Definition fallback_response (state : WorkflowState) : string :=
  match data state !! "category" with
  | Some category =>
      match responses !! category with
      | Some r => r
      | None => "We'll help you"
      end
  | None => "We'll help you"
  end.

(** The body of the [try]: [Return (Some state')] stands for the
    [return state] inside it, [Return None] for falling out of the
    [if parts:] to the code after the handler. *)
Definition try_llm (net : service) (state : WorkflowState) : result (option WorkflowState) :=
  result <- ask net (prompt_of state) ;;
  parts <- candidate_parts result ;;
  if truthy_json parts then
    text <- first_text parts ;;
    Return (Some (store state "response" text))
  else Return None.

Definition generate_response (self : WorkflowAgent) (net : service)
    (state : WorkflowState) : result WorkflowState :=
  early <-
    (if use_llm self then try_except (try_llm net state) (fun _ => Return None)
     else Return None) ;;
  match early with
  | Some state' => Return state'
  | None => Return (store state "response" (fallback_response state))
  end.

Definition run_workflow (self : WorkflowAgent) (net : service) (message : string)
    : result string :=
  let state := {| data := ∅ |} in
  let state := store state "message" message in
  let state := validate_input state in
  let state := categorize_request state in
  state <- generate_response self net state ;;
  Return (data_get state "response" "Error processing request").

End SimpleWorkflow.

(** ** Further notions, for the properties beyond the claims *)

Module MoreNotions.
Import PyStr SupportWorkflow Gemini.

(** A decimal digit. *)
Definition is_digit (c : ascii) : bool :=
  let n := nat_of_ascii c in ((48 <=? n) && (n <=? 57))%nat.

(** One to four decimal digits. *)
Definition is_ticket_number (d : string) : bool :=
  ((1 <=? String.length d) && (String.length d <=? 4))%nat
  && forallb is_digit (list_ascii_of_string d).

(** The three texts [validate_request] can store in [error_message]. *)
Definition validation_errors : list string :=
  ["Message is empty"; "Message too short";
   "Message too long (max 1000 characters)"].

(** How far a node is from [END] at most, in nodes still to run. *)
Definition rank (n : node) : nat :=
  match n with
  | Validate => 6
  | Categorize => 5
  | GenerateResponse => 4
  | CheckEscalation => 3
  | CreateTicket => 2
  | SendResponse => 1
  | HandleError => 1
  end.

(** The statuses [raise_for_status] lets through. *)
Definition status_ok (status : Z) : bool :=
  negb ((400 <=? status) && (status <? 600)).

(** The body of a reply that carries the text [t]:
    [{"candidates": [{"content": {"parts": [{"text": t}]}}]}]. *)
Definition gemini_body (t : string) : json :=
  JObj [("candidates",
         JArr [JObj [("content",
                      JObj [("parts", JArr [JObj [("text", JStr t)]])])]])].

End MoreNotions.

(** ** The request every script sends to the service *)

Module GeminiCall.
Import Exc Gemini.
Local Open Scope exc_scope.

(** The body shared by the [_get_llm_response] methods, the prompt
    being built by the caller. *)
Definition llm_text (net : service) (prompt : string) : result string :=
  result <- ask net prompt ;;
  parts <- candidate_parts result ;;
  if truthy_json parts then first_text parts
  else Raise (RuntimeError "Invalid response").

End GeminiCall.

(** ** [support_agent.py] *)

Module SupportAgent.
Import Exc PyStr Gemini GeminiCall.
Local Open Scope exc_scope.

(** [FAQS], in insertion order, which is the order [items()] follows. *)
Definition FAQS : list (string * string) :=
  [("password", "Click 'Forgot Password' on login page");
   ("billing", "Contact billing@company.com");
   ("return", "Go to Orders > Return Item")].

(** [for keyword, answer in faqs.items(): if keyword in text: return answer]
    and [None] when the loop ends. *)
Fixpoint first_answer (faqs : list (string * string)) (text : string) : option string :=
  match faqs with
  | [] => None
  | (keyword, answer) :: rest =>
      if contains keyword text then Some answer else first_answer rest text
  end.

Definition lookup_faq (query : string) : option string :=
  first_answer FAQS (lower query).

Record SupportAgent := { api_key : string; use_llm : bool }.

Definition prompt_of (message : string) : string :=
  "You are a helpful customer support agent. Customer says: '" +:+ message
  +:+ "'. Provide a brief, helpful response (1-2 sentences).".

Definition _get_llm_response (net : service) (message : string) : result string :=
  llm_text net (prompt_of message).

Definition _get_fallback_response (message : string) : string :=
  let message_lower := lower message in
  if any_in ["angry"; "terrible"; "manager"] message_lower then
    "I understand your frustration. Let me escalate this to a manager."
  else if any_in ["ship"; "delivery"; "track"] message_lower then
    "Standard shipping takes 3-5 business days. Track in 'My Orders'."
  else if any_in ["cancel"; "refund"] message_lower then
    "Go to 'My Orders' > 'Cancel'. Refunds process in 5-7 days."
  else "I can help with passwords, billing, returns, and shipping. What do you need?".

Definition process (self : SupportAgent) (net : service) (message : string)
    : result string :=
  let faq_answer := lookup_faq message in
  if truthy_opt faq_answer then Return ("I can help! " +:+ fmt_opt faq_answer)
  else if use_llm self then
    try_except (_get_llm_response net message)
               (fun _ => Return (_get_fallback_response message))
  else Return (_get_fallback_response message).

End SupportAgent.

(** ** [simple_crew.py] *)

Module SimpleCrew.
Import Exc PyStr Gemini GeminiCall.
Local Open Scope exc_scope.

(** What [kickoff] can raise besides what the service raises. *)
Inductive failure :=
| ZeroDivisionError
| Raised (e : exception).

Inductive outcome (A : Type) :=
| Done (a : A)
| Failed (f : failure).
Arguments Done {A} a.
Arguments Failed {A} f.

Record Agent := {
  role : string;
  goal : string;
  api_key : option string;
  use_llm : bool
}.

(** [Agent(role, goal, api_key, use_llm)]: [self.use_llm = use_llm and api_key]. *)
Definition new_agent (role goal : string) (api_key : option string) (use_llm : bool) : Agent :=
  {| role := role; goal := goal; api_key := api_key;
     use_llm := use_llm && truthy_opt api_key |}.

Definition prompt_of (self : Agent) (task : string) : string :=
  "You are a " +:+ role self +:+ ". Your goal: " +:+ goal self +:+ nl +:+ nl
  +:+ "Task: " +:+ task +:+ nl +:+ nl
  +:+ "Provide a concise response (2-3 sentences):".

Definition _get_llm_response (self : Agent) (net : service) (task : string) : result string :=
  text <- llm_text net (prompt_of self task) ;;
  Return (role self +:+ ": " +:+ text).

Definition _get_fallback_response (self : Agent) (task : string) : string :=
  role self +:+ ": Completed task - " +:+ task.

Definition work (self : Agent) (net : service) (task : string) : result string :=
  if use_llm self then
    try_except (_get_llm_response self net task)
               (fun _ => Return (_get_fallback_response self task))
  else Return (_get_fallback_response self task).

(** [self.agents[i % len(self.agents)]] *)
Definition pick (agents : list Agent) (i : nat) : outcome Agent :=
  match length agents with
  | O => Failed ZeroDivisionError
  | n =>
      match nth_error agents (i mod n) with
      | Some a => Done a
      | None => Failed (Raised IndexError)
      end
  end.

(** The loop of [kickoff] from task number [i] on, [results] being what
    has been appended so far. *)
Fixpoint kickoff_from (agents : list Agent) (net : service) (i : nat)
    (tasks : list string) (results : list string) : outcome (list string) :=
  match tasks with
  | [] => Done results
  | task :: rest =>
      match pick agents i with
      | Failed f => Failed f
      | Done agent =>
          match work agent net task with
          | Raise e => Failed (Raised e)
          | Return r => kickoff_from agents net (S i) rest (results ++ [r])
          end
      end
  end.

Definition kickoff (agents : list Agent) (net : service) (tasks : list string)
    : outcome (list string) :=
  kickoff_from agents net 0 tasks [].

(** The agents of [create_crew]. *)
Definition create_crew (api_key : option string) (use_llm : bool) : list Agent :=
  [new_agent "Text Extractor" "Extract text from documents" api_key use_llm;
   new_agent "Content Analyzer" "Analyze document content" api_key use_llm;
   new_agent "Summarizer" "Create document summaries" api_key use_llm].

End SimpleCrew.

(** ** [sales_conversation.py] *)

Module SalesConversation.
Import Exc PyStr Gemini.
Local Open Scope exc_scope.

Definition default_reply : string :=
  "I'm here to help! What can I assist you with?".

(** The body of the [try] of [call_gemini]: [Return (Some text)] stands
    for the [return] inside it, [Return None] for leaving the [if parts:]
    without one. *)
Definition try_gemini (net : service) (prompt : string) : result (option string) :=
  result <- ask net prompt ;;
  parts <- candidate_parts result ;;
  if truthy_json parts then
    text <- first_text parts ;;
    Return (Some text)
  else Return None.

Definition call_gemini (net : service) (prompt : string) : result string :=
  early <- try_except (try_gemini net prompt) (fun _ => Return None) ;;
  match early with
  | Some text => Return text
  | None => Return default_reply
  end.

Definition prompt_of (last_message : string) : string :=
  "You are Sarah, a friendly sales specialist. Customer says: '" +:+ last_message
  +:+ "'. Respond briefly (1-2 sentences) and ask a relevant question.".

(** [messages[-1]] of a non-empty list. *)
Fixpoint last_of (first : gmap string string) (rest : list (gmap string string))
    : gmap string string :=
  match rest with
  | [] => first
  | m :: rest' => last_of m rest'
  end.

(** [GeminiAgent.generate_reply]; a message is a dictionary with string
    values. *)
Definition generate_reply (net : service) (messages : list (gmap string string))
    : result (option string) :=
  match messages with
  | [] => Return None
  | first :: rest =>
      let last_message :=
        match last_of first rest !! "content" with
        | Some c => c
        | None => ""
        end in
      response <- call_gemini net (prompt_of last_message) ;;
      Return (Some response)
  end.

End SalesConversation.

(** ** [simple_conversation.py] *)

Module SimpleConversation.
Import Exc PyStr.
Local Open Scope exc_scope.

Definition HF_TOKEN : string := "hf_YOUR_TOKEN_HERE".

(** The Hugging Face client: [text_generation] on a context returns a
    text or raises. *)
Definition client := string -> result string.

Record ConversationAgent := {
  name : string;
  role : string;
  conversation : list string;
  use_llm : bool;
  llm_ready : bool
}.

(** [ConversationAgent(name, role, use_llm)]; [client_ok] tells whether
    [InferenceClient(token=HF_TOKEN)] returns rather than raises. *)
Definition new_agent (name role : string) (use_llm client_ok : bool) : ConversationAgent :=
  {| name := name; role := role; conversation := []; use_llm := use_llm;
     llm_ready :=
       if use_llm && negb (String.eqb HF_TOKEN "hf_YOUR_TOKEN_HERE")
       then client_ok else false |}.

Definition respond_with_rules (message : string) : string :=
  let msg_lower := lower message in
  if contains "budget" msg_lower then
    "What's your budget range for this project?"
  else if contains "timeline" msg_lower || contains "month" msg_lower then
    "When do you need this implemented?"
  else if contains "decision" msg_lower || contains "purchasing" msg_lower then
    "Are you the decision maker for this purchase?"
  else if contains "need" msg_lower || contains "problem" msg_lower then
    "What specific challenges are you trying to solve?"
  else if any_in ["hi"; "hello"; "interested"] msg_lower then
    "Great to meet you! Tell me about your business and what you're looking for."
  else "Tell me more about your business needs.".

(** [lines[-6:]] *)
Definition last_six (lines : list string) : list string :=
  skipn (length lines - 6) lines.

(** The context [respond_with_llm] builds. *)
Definition context_of (self : ConversationAgent) (message : string) : string :=
  let context :=
    "You are " +:+ name self +:+ ", a " +:+ role self +:+ "." +:+ nl
    +:+ "Your goal: Qualify sales leads using BANT (Budget, Authority, Need, Timeline)."
    +:+ nl
    +:+ "Be friendly and conversational. Ask one relevant question." +:+ nl +:+ nl in
  let context :=
    match conversation self with
    | [] => context
    | _ =>
        fold_left (fun acc line => acc +:+ line +:+ nl)
                  (last_six (conversation self))
                  (context +:+ "Conversation so far:" +:+ nl)
    end in
  context +:+ "Customer: " +:+ message +:+ nl +:+ name self +:+ ":".

Definition respond_with_llm (self : ConversationAgent) (hf : client) (message : string)
    : result string :=
  try_except
    (response <- hf (context_of self message) ;;
     Return (strip response))
    (fun _ => Return (respond_with_rules message)).

Definition respond (self : ConversationAgent) (hf : client) (message : string)
    : result string :=
  if llm_ready self then respond_with_llm self hf message
  else Return (respond_with_rules message).

Definition append_line (self : ConversationAgent) (line : string) : ConversationAgent :=
  {| name := name self; role := role self;
     conversation := conversation self ++ [line];
     use_llm := use_llm self; llm_ready := llm_ready self |}.

(** [chat]: the agent after the call, and the response or what was
    raised. *)
Definition chat (self : ConversationAgent) (hf : client) (customer_message : string)
    : ConversationAgent * result string :=
  let self := append_line self ("Customer: " +:+ customer_message) in
  match respond self hf customer_message with
  | Raise e => (self, Raise e)
  | Return response =>
      (append_line self (name self +:+ ": " +:+ response), Return response)
  end.

(** [" ".join(lines)] *)
Fixpoint join_spaces (lines : list string) : string :=
  match lines with
  | [] => ""
  | [l] => l
  | l :: rest => l +:+ " " +:+ join_spaces rest
  end.

(** The BANT score; [true] stands for the check mark, [false] for the
    cross. *)
Record Score := { Budget : bool; Authority : bool; Need : bool; Timeline : bool }.

Definition analyze_qualification (self : ConversationAgent) : Score :=
  let conv_text := lower (join_spaces (conversation self)) in
  {| Budget := any_in ["budget"; "50k"; "thousand"; "$"] conv_text;
     Authority := any_in ["decision"; "ceo"; "cto"; "manager"] conv_text;
     Need := any_in ["need"; "problem"; "challenge"] conv_text;
     Timeline := any_in ["month"; "quarter"; "timeline"; "asap"] conv_text |}.

End SimpleConversation.

(** ** Notions for the failure of the generation service *)

Module FallbackNotions.
Import Gemini.









End FallbackNotions.

(** ** Notions for series of calls *)

Module SessionNotions.
Import Exc PyStr.

(** A series of [chat] calls on one client: the agent in the end and
    what each call returned. *)
Fixpoint chats (self : SimpleConversation.ConversationAgent)
    (hf : SimpleConversation.client) (messages : list string)
    : SimpleConversation.ConversationAgent * list (result string) :=
  match messages with
  | [] => (self, [])
  | m :: rest =>
      let '(self, r) := SimpleConversation.chat self hf m in
      let '(self, rs) := chats self hf rest in
      (self, r :: rs)
  end.

(** The two lines one exchange adds to the history. *)
Definition exchange (name message response : string) : list string :=
  ["Customer: " +:+ message; name +:+ ": " +:+ response].

(** The history of a conversation answered by rules throughout. *)
Fixpoint ruled_history (name : string) (messages : list string) : list string :=
  match messages with
  | [] => []
  | m :: rest =>
      exchange name m (SimpleConversation.respond_with_rules m)
      ++ ruled_history name rest
  end.

End SessionNotions.

(** * Properties *)

(** ** Facts about the string primitives *)

Section StringFacts.
Import PyStr.

Lemma len_zero_iff s : len s = 0 <-> s = "".
Proof.
  unfold len. destruct s as [|c t]; cbn [String.length]; split;
    intros H; try reflexivity; try discriminate; lia.
Qed.

Lemma len_cons c t : len (String c t) = 1 + len t.
Proof. unfold len. cbn [String.length]. lia. Qed.

Lemma all_space_cons c t : all_space (String c t) = isspace c && all_space t.
Proof. reflexivity. Qed.

Lemma lstrip_shape s :
  lstrip s = "" \/ exists c t, lstrip s = String c t /\ isspace c = false.
Proof.
  induction s as [|c t IH]; cbn [lstrip]; [now left|].
  destruct (isspace c) eqn:E; [exact IH|].
  right. now exists c, t.
Qed.

Lemma lstrip_empty_iff s : lstrip s = "" <-> all_space s = true.
Proof.
  induction s as [|c t IH]; cbn [lstrip]; [easy|].
  rewrite all_space_cons. destruct (isspace c); cbn [andb]; [exact IH|].
  split; discriminate.
Qed.

Lemma rstrip_empty_iff s : rstrip s = "" <-> all_space s = true.
Proof.
  induction s as [|c t IH]; cbn [rstrip]; [easy|].
  rewrite all_space_cons.
  destruct (rstrip t) as [|d r] eqn:E.
  - destruct (isspace c); cbn [andb].
    + split; [intros _; now apply IH | reflexivity].
    + split; discriminate.
  - split; [discriminate|].
    intros H. apply andb_true_iff in H as [_ H].
    apply IH in H. discriminate.
Qed.

Lemma strip_empty_iff s : strip s = "" <-> all_space s = true.
Proof.
  unfold strip. rewrite rstrip_empty_iff. split.
  - intros H. apply lstrip_empty_iff.
    destruct (lstrip_shape s) as [E | (c & t & E & Hc)]; [exact E|].
    rewrite E, all_space_cons, Hc in H. discriminate.
  - intros H. apply lstrip_empty_iff in H. now rewrite H.
Qed.

(** The first test of [validate_request]:
    [not message or len(message.strip()) == 0]. *)
Lemma blank_test s :
  negb (truthy s) || (len (strip s) =? 0) = all_space s.
Proof.
  destruct (all_space s) eqn:E.
  - apply strip_empty_iff in E. rewrite E. apply orb_true_r.
  - apply orb_false_iff. split.
    + destruct s; [discriminate E | reflexivity].
    + apply Z.eqb_neq. intros H. apply len_zero_iff, strip_empty_iff in H.
      congruence.
Qed.

Lemma stripped_empty_iff s : len (strip s) = 0 <-> all_space s = true.
Proof. rewrite len_zero_iff. apply strip_empty_iff. Qed.

End StringFacts.

(** ** Facts about the stages of [support_workflow.py] *)

Module SupportFacts.
Import PyStr SupportWorkflow SupportNotions.

Ltac unfold_stages :=
  unfold validate_request, categorize_request, generate_response,
    check_escalation_needed, create_ticket, handle_error, send_response, bump.

Ltac frame :=
  intros; unfold_stages; repeat case_match; reflexivity.

Lemma validate_request_spec s :
  validate_request s =
    if all_space (user_message s) then
      set_error_message s (Some "Message is empty")
    else if len (user_message s) <? 2 then
      set_error_message s (Some "Message too short")
    else if len (user_message s) >? 1000 then
      set_error_message s (Some "Message too long (max 1000 characters)")
    else bump s.
Proof. unfold validate_request. now rewrite blank_test. Qed.

Lemma passes_iff m :
  passes m = true <-> all_space m = false /\ 2 <= len m <= 1000.
Proof.
  unfold passes. rewrite validate_request_spec. cbn [user_message initial_state].
  destruct (all_space m); [cbn; intuition discriminate|].
  destruct (Z.ltb_spec (len m) 2); [cbn; intuition (discriminate || lia)|].
  destruct (len m >? 1000) eqn:E; cbn.
  - apply Z.gtb_lt in E. intuition (discriminate || lia).
  - rewrite Z.gtb_ltb in E. apply Z.ltb_ge in E. intuition lia.
Qed.

Lemma validate_accepts rid m :
  passes m = true ->
  validate_request (initial_state rid m) = bump (initial_state rid m).
Proof.
  intros H. apply passes_iff in H as (Hs & Hlo & Hhi).
  rewrite validate_request_spec. cbn [user_message initial_state].
  rewrite Hs.
  destruct (Z.ltb_spec (len m) 2); [lia|].
  destruct (len m >? 1000) eqn:E; [apply Z.gtb_lt in E; lia | reflexivity].
Qed.

Lemma validate_rejects rid m :
  passes m = false ->
  exists e, truthy e = true /\
    validate_request (initial_state rid m)
    = set_error_message (initial_state rid m) (Some e).
Proof.
  unfold passes. rewrite !validate_request_spec. cbn [user_message initial_state].
  repeat case_match; cbn; intros Hp; try discriminate;
    (eexists; split; [|reflexivity]; reflexivity).
Qed.

Lemma never_cleared_spec flags :
  never_cleared flags = true ->
  forall (i j : nat) b, (i <= j)%nat ->
    flags !! i = Some true -> flags !! j = Some b -> b = true.
Proof.
  induction flags as [|a rest IH]; intros H i j b Hij Hi Hj; [discriminate Hi|].
  cbn [never_cleared] in H. apply andb_true_iff in H as [Hhd Htl].
  destruct i as [|i], j as [|j]; cbn in Hi, Hj.
  - congruence.
  - injection Hi as ->.
    rewrite forallb_forall in Hhd.
    apply (Hhd b). apply list_elem_of_In. eapply list_elem_of_lookup_2. exact Hj.
  - lia.
  - apply (IH Htl i j b); [lia | assumption | assumption].
Qed.

Lemma opt_in_swap x a b : opt_in x [a; b] = opt_in x [b; a].
Proof. destruct x as [l|]; cbn; [|reflexivity]. rewrite !orb_false_r. apply orb_comm. Qed.

(** What each stage leaves alone. *)

Lemma categorize_escalated s : escalated (categorize_request s) = escalated s.
Proof. frame. Qed.
Lemma categorize_ticket s : ticket_created (categorize_request s) = ticket_created s.
Proof. frame. Qed.
Lemma categorize_error s : error_message (categorize_request s) = error_message s.
Proof. frame. Qed.
Lemma categorize_message s : user_message (categorize_request s) = user_message s.
Proof. frame. Qed.
Lemma categorize_steps s : step_count (categorize_request s) = step_count s + 1.
Proof. frame. Qed.
Lemma validate_escalated s : escalated (validate_request s) = escalated s.
Proof. frame. Qed.
Lemma validate_ticket s : ticket_created (validate_request s) = ticket_created s.
Proof. frame. Qed.

Lemma generate_escalated s : escalated (generate_response s) = escalated s.
Proof. frame. Qed.
Lemma generate_ticket s : ticket_created (generate_response s) = ticket_created s.
Proof. frame. Qed.
Lemma generate_category s : category (generate_response s) = category s.
Proof. frame. Qed.
Lemma generate_priority s : priority (generate_response s) = priority s.
Proof. frame. Qed.
Lemma generate_message s : user_message (generate_response s) = user_message s.
Proof. frame. Qed.

Lemma generate_error s : error_message (generate_response s) = error_message s.
Proof. frame. Qed.
Lemma generate_response_eq s :
  response (generate_response s)
  = Some (responses_get (or_default (category s) "general")).
Proof. frame. Qed.

Lemma check_category s : category (check_escalation_needed s) = category s.
Proof. frame. Qed.
Lemma check_priority s : priority (check_escalation_needed s) = priority s.
Proof. frame. Qed.
Lemma check_response s : response (check_escalation_needed s) = response s.
Proof. frame. Qed.
Lemma check_ticket s : ticket_created (check_escalation_needed s) = ticket_created s.
Proof. frame. Qed.
Lemma check_error s : error_message (check_escalation_needed s) = error_message s.
Proof. frame. Qed.
Lemma check_message s : user_message (check_escalation_needed s) = user_message s.
Proof. frame. Qed.
Lemma check_escalated s : escalated (check_escalation_needed s) = escalation_needed s.
Proof. frame. Qed.

Lemma send_category s : category (send_response s) = category s.
Proof. frame. Qed.
Lemma send_priority s : priority (send_response s) = priority s.
Proof. frame. Qed.
Lemma send_response_eq s : response (send_response s) = response s.
Proof. frame. Qed.
Lemma send_escalated s : escalated (send_response s) = escalated s.
Proof. frame. Qed.
Lemma send_ticket s : ticket_created (send_response s) = ticket_created s.
Proof. frame. Qed.
Lemma send_error s : error_message (send_response s) = error_message s.
Proof. frame. Qed.
Lemma send_steps s : step_count (send_response s) = step_count s + 1.
Proof. frame. Qed.

Lemma handle_category s : category (handle_error s) = category s.
Proof. frame. Qed.
Lemma handle_priority s : priority (handle_error s) = priority s.
Proof. frame. Qed.
Lemma handle_escalated s : escalated (handle_error s) = true.
Proof. frame. Qed.
Lemma handle_ticket s : ticket_created (handle_error s) = ticket_created s.
Proof. frame. Qed.
Lemma handle_error_eq s : error_message (handle_error s) = error_message s.
Proof. frame. Qed.
Lemma handle_steps s : step_count (handle_error s) = step_count s + 1.
Proof. frame. Qed.

Lemma create_category hash s : category (create_ticket hash s) = category s.
Proof. frame. Qed.
Lemma create_priority hash s : priority (create_ticket hash s) = priority s.
Proof. frame. Qed.
Lemma create_escalated hash s : escalated (create_ticket hash s) = escalated s.
Proof. frame. Qed.
Lemma create_ticket_set hash s : ticket_created (create_ticket hash s) = true.
Proof. frame. Qed.
Lemma create_error hash s : error_message (create_ticket hash s) = error_message s.
Proof. frame. Qed.
Lemma create_steps hash s : step_count (create_ticket hash s) = step_count s + 1.
Proof. frame. Qed.
Lemma create_response hash s :
  response (create_ticket hash s)
  = Some (or_default (response s) "" +:+ ticket_notice hash s).
Proof. frame. Qed.

Lemma generate_steps s : step_count (generate_response s) = step_count s + 1.
Proof. frame. Qed.
Lemma check_steps s : step_count (check_escalation_needed s) = step_count s + 1.
Proof. frame. Qed.

Lemma bump_escalated s : escalated (bump s) = escalated s.
Proof. reflexivity. Qed.
Lemma bump_ticket s : ticket_created (bump s) = ticket_created s.
Proof. reflexivity. Qed.
Lemma bump_error s : error_message (bump s) = error_message s.
Proof. reflexivity. Qed.
Lemma bump_message s : user_message (bump s) = user_message s.
Proof. reflexivity. Qed.
Lemma bump_steps s : step_count (bump s) = step_count s + 1.
Proof. reflexivity. Qed.

Create Rewrite HintDb frame.
Hint Rewrite
  generate_steps check_steps
  categorize_escalated categorize_ticket categorize_error categorize_message
  categorize_steps validate_escalated validate_ticket
  generate_escalated generate_ticket generate_category generate_priority
  generate_message generate_error generate_response_eq
  check_category check_priority check_response check_ticket check_error
  check_message check_escalated
  send_category send_priority send_response_eq send_escalated send_ticket
  send_error send_steps
  handle_category handle_priority handle_escalated handle_ticket
  handle_error_eq handle_steps
  create_category create_priority create_escalated create_ticket_set
  create_error create_steps create_response
  bump_escalated bump_ticket bump_error bump_message bump_steps : frame.

Lemma responses_get_nonempty k : truthy (responses_get k) = true.
Proof. unfold responses_get. repeat case_match; reflexivity. Qed.

Lemma or_default_truthy s d : truthy s = true -> or_default (Some s) d = s.
Proof. destruct s; [discriminate | reflexivity]. Qed.

Lemma ticket_notice_eq hash s :
  ticket_notice hash s = notice_for (hash (user_message s) mod 10000).
Proof. reflexivity. Qed.

(** [categorize_request] pairs category and priority as the table does. *)
Lemma categorize_table s :
  exists c p,
    category (categorize_request s) = Some c
    /\ priority (categorize_request s) = Some p
    /\ In (c, p) priority_table.
Proof.
  unfold categorize_request, priority_table.
  repeat case_match; eexists; eexists; (split; [reflexivity|]);
    (split; [reflexivity|]); cbn; tauto.
Qed.

(** The stages act alike on states that agree. *)

Lemma agree_initial b rid rid' m :
  agree b (initial_state rid m) (initial_state rid' m).
Proof. unfold agree. cbn. tauto. Qed.

Ltac agree_stage :=
  intros [] [] [] (? & ? & ? & Hr & ? & ? & ? & ?); cbn in *;
  try specialize (Hr eq_refl); subst;
  unfold agree; unfold_stages; cbn;
  repeat case_match; cbn; repeat split; (reflexivity || discriminate || idtac).

Lemma validate_agree b s s' :
  agree b s s' -> agree b (validate_request s) (validate_request s').
Proof. revert b s s'. agree_stage. Qed.

Lemma categorize_agree b s s' :
  agree b s s' -> agree b (categorize_request s) (categorize_request s').
Proof. revert b s s'. agree_stage. Qed.

Lemma generate_agree b s s' :
  agree b s s' -> agree b (generate_response s) (generate_response s').
Proof. revert b s s'. agree_stage. Qed.

Lemma check_agree b s s' :
  agree b s s' -> agree b (check_escalation_needed s) (check_escalation_needed s').
Proof. revert b s s'. agree_stage. Qed.

Lemma handle_agree b s s' :
  agree b s s' -> agree b (handle_error s) (handle_error s').
Proof. revert b s s'. agree_stage. Qed.

Lemma send_agree b s s' :
  agree b s s' -> agree b (send_response s) (send_response s').
Proof. revert b s s'. agree_stage. Qed.

Lemma create_agree b hash hash' s s' :
  (b = true -> hash (user_message s) mod 10000 = hash' (user_message s') mod 10000) ->
  agree b s s' -> agree b (create_ticket hash s) (create_ticket hash' s').
Proof.
  intros Hh (Hm & Hc & Hp & Hr & He & Ht & Herr & Hs).
  unfold agree, create_ticket.
  cbn [user_message category priority response escalated ticket_created
       error_message step_count bump set_step_count set_response set_ticket_created].
  repeat split; try assumption; try congruence.
  intros Hb. rewrite !ticket_notice_eq, (Hr Hb), (Hh Hb). reflexivity.
Qed.

(** Two runs on the same message agree in the end, whatever their
    request ids; their responses too when the ticket numbers do. *)
Lemma process_request_agree b hash hash' rid rid' m :
  (b = true -> hash m mod 10000 = hash' m mod 10000) ->
  agree b (process_request hash rid m) (process_request hash' rid' m).
Proof.
  intros Hh. unfold process_request.
  set (v := validate_request (initial_state rid m)).
  set (v' := validate_request (initial_state rid' m)).
  assert (A1 : agree b v v') by apply validate_agree, agree_initial.
  assert (Hv : user_message v = m) by (subst v; frame).
  pose proof A1 as (_ & _ & _ & _ & _ & _ & Herr & _).
  rewrite <- Herr.
  destruct (truthy_opt (error_message v)); [now apply handle_agree|].
  set (c := check_escalation_needed (generate_response (categorize_request v))).
  set (c' := check_escalation_needed (generate_response (categorize_request v'))).
  assert (A4 : agree b c c')
    by now apply check_agree, generate_agree, categorize_agree.
  assert (Hc : user_message c = m).
  { subst c. unfold check_escalation_needed, generate_response.
    cbn [user_message bump set_step_count set_escalated set_response].
    now rewrite categorize_message. }
  pose proof A4 as (Hm4 & _ & _ & _ & He4 & _).
  rewrite <- He4. apply send_agree.
  destruct (escalated c); [|exact A4].
  apply create_agree; [|exact A4].
  intros Hb. rewrite <- Hm4, Hc. now apply Hh.
Qed.

Lemma checked_error rid m : error_message (checked rid m) = None.
Proof. unfold checked. now autorewrite with frame. Qed.

Lemma checked_ticket rid m : ticket_created (checked rid m) = false.
Proof. unfold checked. now autorewrite with frame. Qed.

Lemma checked_steps rid m : step_count (checked rid m) = 4.
Proof. unfold checked. now autorewrite with frame. Qed.

Section Runs.
Variable hash : string -> Z.

(** The error path. *)
Lemma walk_rejected rid m :
  passes m = false ->
  let s1 := validate_request (initial_state rid m) in
  walk hash 7 Validate (initial_state rid m)
  = [(Validate, s1); (HandleError, handle_error s1)].
Proof.
  intros H. destruct (validate_rejects rid m H) as (e & He & Hv).
  cbn zeta. change 7%nat with (S 6). cbn [walk stage]. rewrite Hv.
  cbn [successor]. unfold has_error.
  cbn [error_message set_error_message truthy_opt]. rewrite He.
  reflexivity.
Qed.

Lemma process_request_rejected rid m :
  passes m = false ->
  process_request hash rid m
  = handle_error (validate_request (initial_state rid m)).
Proof.
  intros H. destruct (validate_rejects rid m H) as (e & He & Hv).
  unfold process_request. rewrite Hv.
  cbn [error_message set_error_message truthy_opt].
  now rewrite He.
Qed.

(** The two paths of a run that passed validation. *)
Lemma walk_accepted rid m :
  passes m = true ->
  let s0 := initial_state rid m in
  let s2 := categorize_request (bump s0) in
  let s3 := generate_response s2 in
  let s4 := checked rid m in
  walk hash 7 Validate s0
  = (Validate, bump s0) :: (Categorize, s2) :: (GenerateResponse, s3)
    :: (CheckEscalation, s4)
    :: (if escalated s4
        then [(CreateTicket, create_ticket hash s4);
              (SendResponse, send_response (create_ticket hash s4))]
        else [(SendResponse, send_response s4)]).
Proof.
  intros H. cbn zeta. change 7%nat with (S 6). cbn [walk stage].
  rewrite (validate_accepts rid m H). cbn [successor].
  unfold has_error at 1.
  cbn [error_message bump set_step_count initial_state truthy_opt].
  cbn [walk stage successor]. fold (checked rid m).
  unfold should_escalate. destruct (escalated (checked rid m)); reflexivity.
Qed.

Lemma process_request_accepted rid m :
  passes m = true ->
  let s4 := checked rid m in
  process_request hash rid m
  = send_response (if escalated s4 then create_ticket hash s4 else s4).
Proof.
  intros H. unfold process_request. rewrite (validate_accepts rid m H).
  cbn [error_message bump set_step_count initial_state truthy_opt].
  reflexivity.
Qed.

(** The compiled graph and the mock run end in the same state. *)
Lemma invoke_process_request rid m :
  invoke hash (initial_state rid m) = Some (process_request hash rid m).
Proof.
  destruct (passes m) eqn:H.
  - rewrite (process_request_accepted rid m H). cbn zeta.
    unfold invoke. change 7%nat with (S 6). cbn [invoke_from stage].
    rewrite (validate_accepts rid m H). cbn [successor].
    unfold has_error at 1.
    cbn [error_message bump set_step_count initial_state truthy_opt].
    cbn [invoke_from stage successor]. fold (checked rid m).
    unfold should_escalate. destruct (escalated (checked rid m)); reflexivity.
  - rewrite (process_request_rejected rid m H).
    destruct (validate_rejects rid m H) as (e & He & Hv).
    unfold invoke. change 7%nat with (S 6). cbn [invoke_from stage].
    rewrite Hv. cbn [successor]. unfold has_error.
    cbn [error_message set_error_message truthy_opt]. rewrite He.
    reflexivity.
Qed.

(** The fields of the final state, path by path. *)
Lemma final_rejected rid m :
  passes m = false ->
  let r := process_request hash rid m in
  category r = None /\ priority r = None /\ escalated r = true
  /\ ticket_created r = false /\ truthy_opt (error_message r) = true.
Proof.
  intros H. cbn zeta. rewrite (process_request_rejected rid m H).
  destruct (validate_rejects rid m H) as (e & He & ->).
  autorewrite with frame. cbn. now rewrite He.
Qed.

Lemma checked_escalated rid m :
  escalated (checked rid m)
  = let s2 := categorize_request (bump (initial_state rid m)) in
    opt_in (priority s2) ["urgent"; "high"]
    || opt_in (category s2) ["complaint"; "technical"]
    || any_in escalation_words (lower m).
Proof.
  unfold checked. cbn zeta. autorewrite with frame. unfold escalation_needed.
  now autorewrite with frame.
Qed.

Lemma final_accepted rid m :
  passes m = true ->
  let s2 := categorize_request (bump (initial_state rid m)) in
  let r := process_request hash rid m in
  category r = category s2 /\ priority r = priority s2
  /\ escalated r = escalated (checked rid m)
  /\ ticket_created r = escalated (checked rid m)
  /\ error_message r = None.
Proof.
  intros H. cbn zeta. rewrite (process_request_accepted rid m H). cbn zeta.
  pose proof (checked_ticket rid m) as Ht.
  pose proof (checked_error rid m) as He.
  assert (Hc : category (checked rid m)
               = category (categorize_request (bump (initial_state rid m))))
    by (unfold checked; now autorewrite with frame).
  assert (Hp : priority (checked rid m)
               = priority (categorize_request (bump (initial_state rid m))))
    by (unfold checked; now autorewrite with frame).
  destruct (escalated (checked rid m)) eqn:E; autorewrite with frame;
    rewrite ?E, ?Ht; auto.
Qed.

(** The states of a run and their [escalated] flags. *)
Lemma run_states_rejected rid m :
  passes m = false ->
  let s0 := initial_state rid m in
  run_states hash rid m
  = [s0; validate_request s0; handle_error (validate_request s0)].
Proof. intros H. unfold run_states. now rewrite (walk_rejected rid m H). Qed.

Lemma run_states_accepted rid m :
  passes m = true ->
  let s0 := initial_state rid m in
  let s2 := categorize_request (bump s0) in
  let s4 := checked rid m in
  run_states hash rid m
  = s0 :: bump s0 :: s2 :: generate_response s2 :: s4
    :: (if escalated s4
        then [create_ticket hash s4; send_response (create_ticket hash s4)]
        else [send_response s4]).
Proof.
  intros H. unfold run_states. rewrite (walk_accepted rid m H). cbn zeta.
  now destruct (escalated (checked rid m)).
Qed.

Lemma run_flags rid m :
  escalated <$> run_states hash rid m
  = if passes m then
      if escalated (checked rid m)
      then [false; false; false; false; true; true; true]
      else [false; false; false; false; false; false]
    else [false; false; true].
Proof.
  destruct (passes m) eqn:H.
  - rewrite (run_states_accepted rid m H). cbn zeta.
    destruct (escalated (checked rid m)) eqn:E; cbn [fmap list_fmap];
      autorewrite with frame; rewrite ?E; reflexivity.
  - rewrite (run_states_rejected rid m H). cbn zeta. cbn [fmap list_fmap].
    autorewrite with frame. reflexivity.
Qed.

Lemma run_tickets rid m :
  ticket_created <$> run_states hash rid m
  = if passes m then
      if escalated (checked rid m)
      then [false; false; false; false; false; true; true]
      else [false; false; false; false; false; false]
    else [false; false; false].
Proof.
  destruct (passes m) eqn:H.
  - rewrite (run_states_accepted rid m H). cbn zeta.
    destruct (escalated (checked rid m)) eqn:E; cbn [fmap list_fmap];
      autorewrite with frame; rewrite ?checked_ticket; reflexivity.
  - rewrite (run_states_rejected rid m H). cbn zeta. cbn [fmap list_fmap].
    autorewrite with frame. reflexivity.
Qed.

(** The state [process_request] returns is the last one of the run. *)
Lemma final_in_run_states rid m :
  In (process_request hash rid m) (run_states hash rid m).
Proof.
  destruct (passes m) eqn:H.
  - rewrite (run_states_accepted rid m H), (process_request_accepted rid m H).
    cbn zeta. destruct (escalated (checked rid m)); cbn; tauto.
  - rewrite (run_states_rejected rid m H), (process_request_rejected rid m H).
    cbn; tauto.
Qed.

Lemma checked_response rid m :
  response (checked rid m)
  = Some (responses_get
            (or_default (category (categorize_request (bump (initial_state rid m))))
                        "general")).
Proof. unfold checked. now autorewrite with frame. Qed.

Lemma checked_message rid m : user_message (checked rid m) = m.
Proof. unfold checked. now autorewrite with frame. Qed.

(** The response of a run that created a ticket. *)
Lemma ticketed_response rid m :
  ticket_created (process_request hash rid m) = true ->
  response (process_request hash rid m)
  = Some (responses_get
            (or_default (category (process_request hash rid m)) "general")
          +:+ notice_for (hash m mod 10000)).
Proof.
  intros Ht. destruct (passes m) eqn:H.
  - destruct (final_accepted rid m H) as (Hc & _ & _ & He & _).
    cbn zeta in Hc, He. rewrite Hc. rewrite He in Ht.
    rewrite (process_request_accepted rid m H). cbn zeta. rewrite Ht.
    rewrite send_response_eq, create_response.
    rewrite checked_response, ticket_notice_eq, checked_message.
    now rewrite or_default_truthy by apply responses_get_nonempty.
  - destruct (final_rejected rid m H) as (_ & _ & _ & Hf & _).
    cbn zeta in Hf. congruence.
Qed.

(** Step counts, path by path. *)
Lemma run_path_rejected rid m :
  passes m = false -> run_path hash rid m = [Validate; HandleError].
Proof. intros H. unfold run_path. now rewrite (walk_rejected rid m H). Qed.

Lemma run_path_accepted rid m :
  passes m = true ->
  run_path hash rid m
  = if escalated (checked rid m)
    then [Validate; Categorize; GenerateResponse; CheckEscalation;
          CreateTicket; SendResponse]
    else [Validate; Categorize; GenerateResponse; CheckEscalation;
          SendResponse].
Proof.
  intros H. unfold run_path. rewrite (walk_accepted rid m H).
  cbn zeta. now destruct (escalated (checked rid m)).
Qed.

Lemma step_count_rejected rid m :
  passes m = false -> step_count (process_request hash rid m) = 1.
Proof.
  intros H. rewrite (process_request_rejected rid m H).
  destruct (validate_rejects rid m H) as (e & _ & ->). reflexivity.
Qed.

Lemma step_count_accepted rid m :
  passes m = true ->
  step_count (process_request hash rid m)
  = Z.of_nat (length (run_path hash rid m)).
Proof.
  intros H. rewrite (process_request_accepted rid m H), (run_path_accepted rid m H).
  cbn zeta. pose proof (checked_steps rid m) as E.
  destruct (escalated (checked rid m)); autorewrite with frame;
    rewrite E; reflexivity.
Qed.

(** Every stage but a rejecting [Validate] adds one step. *)
Lemma stage_steps n s :
  step_count (stage hash n s)
  = match n with
    | Validate =>
        if truthy_opt (error_message (validate_request (set_error_message s None)))
        then step_count s else step_count s + 1
    | _ => step_count s + 1
    end.
Proof.
  destruct n; cbn [stage]; try (frame; fail).
  rewrite !validate_request_spec.
  cbn [user_message set_error_message].
  destruct (all_space (user_message s)); [reflexivity|].
  destruct (len (user_message s) <? 2); [reflexivity|].
  destruct (len (user_message s) >? 1000); reflexivity.
Qed.

End Runs.

End SupportFacts.

(** ** The claims about [support_workflow.py] *)

Import PyStr SupportWorkflow SupportNotions SupportFacts.

(** C1.  On the error path the final [step_count] is 1 although two
    stages ran: for the one-character message ["H"] the run executes
    [Validate] and [HandleError], and [validate_request] returns before
    its increment, so only [handle_error] counts a step. *)
Theorem C1_error_path_counts_one_step :
  run_path PyHash.hash_seed0 "REQ004" "H" = [Validate; HandleError]
  /\ step_count (validate_request (initial_state "REQ004" "H")) = 0
  /\ step_count (process_request PyHash.hash_seed0 "REQ004" "H") = 1.
Proof. repeat split; vm_compute; reflexivity. Qed.

(** C2.  The two-character message ["Hi"], which the test cases of the
    demo list as too short, passes [validate_request]: no error is set,
    the run takes the clean path and not [HandleError], and it ends with
    [escalated] false. *)
Lemma C2_hi_passes_validation :
  error_message (process_request PyHash.hash_seed0 "REQ004" "Hi") = None
  /\ run_path PyHash.hash_seed0 "REQ004" "Hi"
     = [Validate; Categorize; GenerateResponse; CheckEscalation; SendResponse]
  /\ escalated (process_request PyHash.hash_seed0 "REQ004" "Hi") = false.
Proof. repeat split; vm_compute; reflexivity. Qed.

(** C10.  A message whose stripped length is zero (empty or all
    whitespace) is rejected: [validate_request] sets [error_message] to
    ["Message is empty"] and leaves [step_count] as it was, [has_error]
    then answers [Error], and the run goes from [Validate] to
    [HandleError] and stops. *)
Theorem C10_blank_message_rejected (hash : string -> Z) (rid m : string) :
  len (strip m) = 0 ->
  (forall s, user_message s = m ->
     validate_request s = set_error_message s (Some "Message is empty")
     /\ step_count (validate_request s) = step_count s
     /\ has_error (validate_request s) = Error
     /\ successor Validate (validate_request s) = Some HandleError)
  /\ run_path hash rid m = [Validate; HandleError]
  /\ process_request hash rid m
     = handle_error (set_error_message (initial_state rid m) (Some "Message is empty")).
Proof.
  intros H. apply stripped_empty_iff in H.
  assert (Hv : forall s, user_message s = m ->
            validate_request s = set_error_message s (Some "Message is empty")).
  { intros s <-. rewrite validate_request_spec. now rewrite H. }
  assert (Hp : passes m = false).
  { apply not_true_iff_false. intros Hp. apply passes_iff in Hp. destruct Hp. congruence. }
  split; [|split].
  - intros s Hs. rewrite (Hv s Hs). repeat split; reflexivity.
  - now apply run_path_rejected.
  - rewrite (process_request_rejected hash rid m Hp). now rewrite Hv.
Qed.

(** C10 at a message of three spaces. *)
Lemma C10_blank_message_rejected_witness :
  len (strip "   ") = 0
  /\ run_path PyHash.hash_seed0 "REQ005" "   " = [Validate; HandleError]
  /\ step_count (validate_request (initial_state "REQ005" "   ")) = 0.
Proof.
  pose proof (C10_blank_message_rejected PyHash.hash_seed0 "REQ005" "   " eq_refl)
    as (Hs & Hpath & _).
  split; [reflexivity|]. split; [exact Hpath|].
  destruct (Hs (initial_state "REQ005" "   ") eq_refl) as (_ & Hc & _). exact Hc.
Defined.

(** C3, the claim as stated fails: ["urgent password reset"] passes
    validation and contains the urgency keyword "urgent", yet
    [categorize_request] gives it priority medium, the one of its
    category, and that is the priority of the final state. *)
Lemma C3_urgency_keyword_ignored :
  passes "urgent password reset" = true
  /\ any_in HfWorkflow.urgency_words (lower "urgent password reset") = true
  /\ category (categorize_request (initial_state "REQ006" "urgent password reset"))
     = Some "authentication"
  /\ priority (categorize_request (initial_state "REQ006" "urgent password reset"))
     = Some "medium"
  /\ priority (process_request PyHash.hash_seed0 "REQ006" "urgent password reset")
     = Some "medium".
Proof. repeat split; vm_compute; reflexivity. Qed.

(** C3, amended.  For every input that passes validation, Categorize
    sets a category and the priority the fixed table gives for it
    (complaint: urgent, technical and billing: high, authentication:
    medium, general: low), and the final state keeps both; no keyword
    overrides the table. *)
Theorem C3_priority_follows_table (hash : string -> Z) (rid m : string) :
  passes m = true ->
  exists c p,
    In (c, p) priority_table
    /\ category (categorize_request (validate_request (initial_state rid m))) = Some c
    /\ priority (categorize_request (validate_request (initial_state rid m))) = Some p
    /\ category (process_request hash rid m) = Some c
    /\ priority (process_request hash rid m) = Some p.
Proof.
  intros H. rewrite (validate_accepts rid m H).
  destruct (categorize_table (bump (initial_state rid m))) as (c & p & Hc & Hp & Hin).
  destruct (final_accepted hash rid m H) as (Fc & Fp & _). cbn zeta in Fc, Fp.
  exists c, p. rewrite Fc, Fp. auto.
Qed.

(** C3 at a message with an urgency keyword. *)
Lemma C3_priority_follows_table_witness :
  passes "urgent password reset" = true
  /\ exists c p,
       In (c, p) priority_table
       /\ category (categorize_request (validate_request
             (initial_state "REQ006" "urgent password reset"))) = Some c
       /\ priority (categorize_request (validate_request
             (initial_state "REQ006" "urgent password reset"))) = Some p
       /\ category (process_request PyHash.hash_seed0 "REQ006" "urgent password reset")
          = Some c
       /\ priority (process_request PyHash.hash_seed0 "REQ006" "urgent password reset")
          = Some p.
Proof.
  split; [reflexivity|].
  exact (C3_priority_follows_table PyHash.hash_seed0 "REQ006"
           "urgent password reset" eq_refl).
Defined.

(** C4, the claim as stated fails: two escalated runs with the same
    request id and different messages embed different ticket
    identifiers (hash randomisation off). *)
Lemma C4_ticket_id_varies_with_message :
  ticket_created (process_request PyHash.hash_seed0 "REQ007" "I want a manager") = true
  /\ ticket_created (process_request PyHash.hash_seed0 "REQ007" "I want a human") = true
  /\ response (process_request PyHash.hash_seed0 "REQ007" "I want a manager")
     = Some (responses_get "general" +:+ notice_for 552)
  /\ response (process_request PyHash.hash_seed0 "REQ007" "I want a human")
     = Some (responses_get "general" +:+ notice_for 9764)
  /\ String.eqb
       (ticket_id PyHash.hash_seed0 (checked "REQ007" "I want a manager"))
       (ticket_id PyHash.hash_seed0 (checked "REQ007" "I want a human")) = false.
Proof. repeat split; vm_compute; reflexivity. Qed.

(** C4, amended.  CreateTicket derives the ticket identifier from the
    hash of the message content and not from [request_id]: two runs on
    the same [user_message] give the same response, ticket identifier
    included, whatever their request ids, and the response of a run that
    created a ticket is its template followed by the notice for ticket
    number [hash(user_message) mod 10000]. *)
Theorem C4_ticket_id_from_message_hash (hash : string -> Z) (rid rid' m : string) :
  response (process_request hash rid m) = response (process_request hash rid' m)
  /\ (ticket_created (process_request hash rid m) = true ->
      response (process_request hash rid m)
      = Some (responses_get
                (or_default (category (process_request hash rid m)) "general")
              +:+ notice_for (hash m mod 10000))).
Proof.
  split.
  - destruct (process_request_agree true hash hash rid rid' m) as (_ & _ & _ & Hr & _);
      [reflexivity | now apply Hr].
  - apply ticketed_response.
Qed.

(** C4 at one message under two request ids. *)
Lemma C4_ticket_id_from_message_hash_witness :
  ticket_created (process_request PyHash.hash_seed0 "REQ001" "I want a manager") = true
  /\ response (process_request PyHash.hash_seed0 "REQ001" "I want a manager")
     = response (process_request PyHash.hash_seed0 "REQ002" "I want a manager")
  /\ response (process_request PyHash.hash_seed0 "REQ001" "I want a manager")
     = Some (responses_get
               (or_default
                  (category (process_request PyHash.hash_seed0 "REQ001" "I want a manager"))
                  "general")
             +:+ notice_for (PyHash.hash_seed0 "I want a manager" mod 10000)).
Proof.
  pose proof (C4_ticket_id_from_message_hash PyHash.hash_seed0
                "REQ001" "REQ002" "I want a manager") as (Hsame & Hid).
  split; [reflexivity|]. split; [exact Hsame|]. apply Hid. reflexivity.
Defined.

(** C5, the claim as stated fails: on a state that is already
    escalated but whose message, category and priority call for no
    escalation, [check_escalation_needed] resets [escalated] to false. *)
Lemma C5_check_escalation_clears_flag :
  escalated (mkState "REQ008" "hello" (Some "general") (Some "low") None
                     true false None 3) = true
  /\ escalated (check_escalation_needed
                  (mkState "REQ008" "hello" (Some "general") (Some "low") None
                           true false None 3)) = false.
Proof. split; reflexivity. Qed.

(** C5, amended.  Within a run that starts from the default initial
    state [escalated] is never reset: once a state of the run has it
    true, so has every later one.  Every stage other than
    CheckEscalation leaves a true [escalated] true on any state;
    CheckEscalation overwrites [escalated] with the outcome of its own
    test. *)
Theorem C5_escalated_monotone_in_run (hash : string -> Z) :
  (forall rid m (i j : nat) s s',
     (i <= j)%nat ->
     run_states hash rid m !! i = Some s ->
     run_states hash rid m !! j = Some s' ->
     escalated s = true -> escalated s' = true)
  /\ (forall n s, n <> CheckEscalation ->
        escalated s = true -> escalated (stage hash n s) = true)
  /\ (forall s, escalated (check_escalation_needed s) = escalation_needed s).
Proof.
  split; [|split].
  - intros rid m i j s s' Hij Hi Hj Hs.
    apply (never_cleared_spec (escalated <$> run_states hash rid m)) with (i := i) (j := j).
    + rewrite run_flags. now repeat case_match.
    + exact Hij.
    + now rewrite list_lookup_fmap, Hi, <- Hs.
    + now rewrite list_lookup_fmap, Hj.
  - intros n s Hn Hs. destruct n; cbn [stage]; try congruence;
      unfold_stages; repeat case_match; cbn; assumption || reflexivity.
  - reflexivity.
Qed.

(** C5 between the fifth and the last state of an escalated run. *)
Lemma C5_escalated_monotone_in_run_witness :
  (4 <= 6)%nat
  /\ escalated (checked "REQ002" "This app is terrible! It keeps crashing!") = true
  /\ escalated (process_request PyHash.hash_seed0 "REQ002"
                  "This app is terrible! It keeps crashing!") = true.
Proof.
  split; [lia|]. split; [reflexivity|].
  apply (proj1 (C5_escalated_monotone_in_run PyHash.hash_seed0)
           "REQ002" "This app is terrible! It keeps crashing!" 4%nat 6%nat
           (checked "REQ002" "This app is terrible! It keeps crashing!"));
    [lia | vm_compute; reflexivity | vm_compute; reflexivity | vm_compute; reflexivity].
Defined.

(** C6, the claim as stated fails: a message of 1007 characters that
    contains the escalation keyword "manager" is rejected by
    validation; its run ends escalated but without a ticket. *)
Lemma C6_overlong_message_gets_no_ticket :
  any_in escalation_words (lower ("manager" +:+ repeat_char "!" 1000)) = true
  /\ error_message
       (process_request PyHash.hash_seed0 "REQ009" ("manager" +:+ repeat_char "!" 1000))
     = Some "Message too long (max 1000 characters)"
  /\ escalated
       (process_request PyHash.hash_seed0 "REQ009" ("manager" +:+ repeat_char "!" 1000))
     = true
  /\ ticket_created
       (process_request PyHash.hash_seed0 "REQ009" ("manager" +:+ repeat_char "!" 1000))
     = false.
Proof. repeat split; vm_compute; reflexivity. Qed.

(** C6, amended.  For every input that passes validation and contains
    an escalation keyword, or whose category is complaint or technical,
    or whose priority is high or urgent, the final state of the run has
    [escalated] and [ticket_created] both true. *)
Theorem C6_escalation_creates_ticket (hash : string -> Z) (rid m : string) :
  let r := process_request hash rid m in
  (error_message r = None /\ any_in escalation_words (lower m) = true)
  \/ opt_in (category r) ["complaint"; "technical"] = true
  \/ opt_in (priority r) ["high"; "urgent"] = true ->
  escalated r = true /\ ticket_created r = true.
Proof.
  cbn zeta. intros H. destruct (passes m) eqn:Hp.
  - destruct (final_accepted hash rid m Hp) as (Fc & Fp & Fe & Ft & _).
    cbn zeta in Fc, Fp, Fe, Ft. rewrite Fc, Fp in H. rewrite Fe, Ft.
    rewrite checked_escalated. cbn zeta.
    rewrite (opt_in_swap _ "urgent" "high").
    destruct H as [[_ H] | [H | H]]; rewrite H;
      rewrite ?orb_true_r; auto.
  - destruct (final_rejected hash rid m Hp) as (Fc & Fp & _ & _ & Ferr).
    cbn zeta in Fc, Fp, Ferr. rewrite Fc, Fp in H.
    destruct H as [[H _] | [H | H]]; try discriminate.
    rewrite H in Ferr. discriminate.
Qed.

(** C6 at a message that asks for a manager. *)
Lemma C6_escalation_creates_ticket_witness :
  any_in escalation_words (lower "I want a manager") = true
  /\ escalated (process_request PyHash.hash_seed0 "REQ010" "I want a manager") = true
  /\ ticket_created (process_request PyHash.hash_seed0 "REQ010" "I want a manager") = true.
Proof.
  split; [reflexivity|].
  apply (C6_escalation_creates_ticket PyHash.hash_seed0 "REQ010" "I want a manager").
  left. split; reflexivity.
Defined.

(** C7.  In every state of a run from the default initial state (the
    initial state, the state after each stage, and so the final state,
    on the error path too) [ticket_created] true implies [escalated]
    true. *)
Theorem C7_ticket_only_when_escalated (hash : string -> Z) (rid m : string)
    (s : SupportWorkflowState) :
  In s (process_request hash rid m :: run_states hash rid m) ->
  ticket_created s = true -> escalated s = true.
Proof.
  intros Hin Ht.
  assert (Hin' : In s (run_states hash rid m)).
  { destruct Hin as [<- | Hin]; [apply final_in_run_states | exact Hin]. }
  apply list_elem_of_In, list_elem_of_lookup in Hin' as [i Hi].
  pose proof (run_flags hash rid m) as Hf.
  pose proof (run_tickets hash rid m) as Hk.
  assert (Hfi : (escalated <$> run_states hash rid m) !! i = Some (escalated s))
    by now rewrite list_lookup_fmap, Hi.
  assert (Hki : (ticket_created <$> run_states hash rid m) !! i = Some true)
    by now rewrite list_lookup_fmap, Hi, <- Ht.
  rewrite Hf in Hfi. rewrite Hk in Hki.
  destruct (passes m); [destruct (escalated (checked rid m))|];
    repeat (destruct i as [|i]; cbn in Hfi, Hki; try congruence).
Qed.

(** C7 at the final state of a run that created a ticket. *)
Lemma C7_ticket_only_when_escalated_witness :
  ticket_created (process_request PyHash.hash_seed0 "REQ002"
                    "This app is terrible! It keeps crashing!") = true
  /\ escalated (process_request PyHash.hash_seed0 "REQ002"
                  "This app is terrible! It keeps crashing!") = true.
Proof.
  split; [reflexivity|].
  apply (C7_ticket_only_when_escalated PyHash.hash_seed0 "REQ002"
           "This app is terrible! It keeps crashing!");
    [left; reflexivity | reflexivity].
Defined.




(** The compiled graph of [create_support_workflow], invoked on the
    default initial state, reaches [END] within its seven nodes, in the
    very state [MockSupportWorkflow.process_request] returns. *)
Theorem graph_run_matches_mock_run (hash : string -> Z) (rid m : string) :
  invoke hash (initial_state rid m) = Some (process_request hash rid m).
Proof. apply invoke_process_request. Qed.

(** On a run that passes validation the final [step_count] is the
    number of stages run: 5 without a ticket, 6 with one. *)
Theorem clean_run_counts_every_stage (hash : string -> Z) (rid m : string) :
  passes m = true ->
  step_count (process_request hash rid m)
  = Z.of_nat (length (run_path hash rid m))
  /\ step_count (process_request hash rid m)
     = if ticket_created (process_request hash rid m) then 6 else 5.
Proof.
  intros H. split; [now apply step_count_accepted|].
  destruct (final_accepted hash rid m H) as (_ & _ & _ & Ht & _).
  cbn zeta in Ht. rewrite Ht.
  rewrite (process_request_accepted hash rid m H). cbn zeta.
  pose proof (checked_steps rid m) as E.
  destruct (escalated (checked rid m)); autorewrite with frame;
    rewrite E; reflexivity.
Qed.

(** The step count of the demo's first request. *)
Lemma clean_run_counts_every_stage_witness :
  passes "I forgot my password and can't log in" = true
  /\ step_count (process_request PyHash.hash_seed0 "REQ001"
                   "I forgot my password and can't log in") = 5.
Proof.
  split; [reflexivity|].
  exact (proj2 (clean_run_counts_every_stage PyHash.hash_seed0 "REQ001"
                  "I forgot my password and can't log in" eq_refl)).
Defined.

(** ** The generation service failing: [hf_workflow.py] and [simple_workflow.py] *)

Module FallbackFacts.
Import Exc Gemini.

Lemma hf_fallback_nonempty state :
  truthy (HfWorkflow._get_fallback_response state) = true.
Proof. unfold HfWorkflow._get_fallback_response. repeat case_match; reflexivity. Qed.


Lemma hf_check_escalation_nonempty state :
  truthy_opt (HfWorkflow.response state) = true ->
  truthy_opt (HfWorkflow.response (HfWorkflow.check_escalation state)) = true.
Proof.
  intros H. unfold HfWorkflow.check_escalation.
  destruct (any_in _ _); [|exact H].
  cbn [HfWorkflow.response HfWorkflow.set_escalated]. rewrite H.
  cbn [HfWorkflow.response HfWorkflow.set_response].
  destruct (HfWorkflow.response state) as [[|c t]|]; try discriminate.
  reflexivity.
Qed.

(** An entry of the [responses] dictionary of [simple_workflow.py], or
    its default. *)
Lemma simple_fallback_nonempty state :
  truthy (SimpleWorkflow.fallback_response state) = true.
Proof.
  unfold SimpleWorkflow.fallback_response.
  destruct (SimpleWorkflow.data state !! "category") as [c|]; [|reflexivity].
  unfold SimpleWorkflow.responses.
  destruct (decide (c = "auth")) as [->|H1]; [now rewrite lookup_insert_eq|].
  rewrite lookup_insert_ne by congruence.
  destruct (decide (c = "billing")) as [->|H2]; [now rewrite lookup_insert_eq|].
  rewrite lookup_insert_ne by congruence.
  destruct (decide (c = "general")) as [->|H3]; [now rewrite lookup_insert_eq|].
  rewrite lookup_insert_ne by congruence.
  now rewrite lookup_empty.
Qed.

(** The request of [simple_workflow.py] raises exactly when its
    [try] body does. *)
Lemma simple_generate_on_failure self net state :
  raises (SimpleWorkflow.try_llm net state) ->
  SimpleWorkflow.generate_response self net state
  = Return (SimpleWorkflow.store state "response"
              (SimpleWorkflow.fallback_response state)).
Proof.
  intros [e He]. unfold SimpleWorkflow.generate_response.
  destruct (SimpleWorkflow.use_llm self); [|reflexivity].
  now rewrite He.
Qed.

Lemma simple_data_get_store state key value default :
  SimpleWorkflow.data_get (SimpleWorkflow.store state key value) key default = value.
Proof.
  unfold SimpleWorkflow.data_get, SimpleWorkflow.store.
  cbn [SimpleWorkflow.data]. now rewrite lookup_insert_eq.
Qed.




Lemma no_candidates : candidate_parts (JObj [("candidates", JArr [])]) = Raise IndexError.
Proof. reflexivity. Qed.



End FallbackFacts.

Import FallbackFacts.

(** ** Further properties of [support_workflow.py] *)

Module SupportMore.
Import PyStr SupportWorkflow SupportNotions SupportFacts MoreNotions.

(** No stage writes [request_id] or [user_message]. *)
Lemma stage_identity hash n s :
  request_id (stage hash n s) = request_id s
  /\ user_message (stage hash n s) = user_message s.
Proof. destruct n; cbn [stage]; split; frame. Qed.

Lemma walk_identity hash k : forall n s p,
  In p (walk hash k n s) ->
  request_id (snd p) = request_id s /\ user_message (snd p) = user_message s.
Proof.
  induction k as [|k IH]; intros n s p Hin; [destruct Hin|].
  cbn [walk] in Hin. destruct (stage_identity hash n s) as [Hr Hm].
  destruct Hin as [<- | Hin]; [now split|].
  destruct (successor n (stage hash n s)) as [m|]; [|destruct Hin].
  destruct (IH m _ p Hin) as [Hr' Hm']. split; congruence.
Qed.

(** Every edge of the graph leads closer to [END]. *)
Lemma successor_rank n s m : successor n s = Some m -> (rank m < rank n)%nat.
Proof.
  destruct n; cbn [successor]; repeat case_match; intros [= <-]; cbn; lia.
Qed.

Lemma rank_positive n : (1 <= rank n)%nat.
Proof. destruct n; cbn; lia. Qed.

(** Fuel beyond the rank of the node changes nothing. *)
Lemma invoke_from_stable hash : forall k k' n s,
  (rank n <= k)%nat -> (rank n <= k')%nat ->
  invoke_from hash k n s = invoke_from hash k' n s.
Proof.
  induction k as [|k IH]; intros k' n s Hk Hk'.
  - pose proof (rank_positive n). lia.
  - destruct k' as [|k']; [pose proof (rank_positive n); lia|].
    cbn [invoke_from].
    destruct (successor n (stage hash n s)) as [m|] eqn:E; [|reflexivity].
    apply successor_rank in E. apply IH; lia.
Qed.

Lemma invoke_from_some hash : forall k n s,
  (rank n <= k)%nat -> is_Some (invoke_from hash k n s).
Proof.
  induction k as [|k IH]; intros n s Hk.
  - pose proof (rank_positive n). lia.
  - cbn [invoke_from].
    destruct (successor n (stage hash n s)) as [m|] eqn:E; [|eauto].
    apply successor_rank in E. apply IH. lia.
Qed.

Lemma walk_length hash : forall k n s,
  (length (walk hash k n s) <= rank n)%nat.
Proof.
  induction k as [|k IH]; intros n s; cbn [walk length]; [lia|].
  destruct (successor n (stage hash n s)) as [m|] eqn:E.
  - apply successor_rank in E. specialize (IH m (stage hash n s)). lia.
  - pose proof (rank_positive n). cbn [length]. lia.
Qed.

(** Lower-casing keeps the blanks of a message. *)
Lemma lower_char_space c : isspace (lower_char c) = isspace c.
Proof. destruct c as [[] [] [] [] [] [] [] []]; reflexivity. Qed.

Lemma lower_all_space s : all_space (lower s) = all_space s.
Proof.
  induction s as [|c t IH]; [reflexivity|].
  cbn [lower]. rewrite !all_space_cons, lower_char_space, IH. reflexivity.
Qed.

Lemma lower_eq_all_space m m' : lower m = lower m' -> all_space m = all_space m'.
Proof. intros H. rewrite <- (lower_all_space m), <- (lower_all_space m'). now rewrite H. Qed.

Lemma lower_eq_passes m m' :
  len m = len m' -> lower m = lower m' -> passes m = passes m'.
Proof.
  intros Hl H. pose proof (lower_eq_all_space _ _ H) as Hs.
  destruct (passes m) eqn:E, (passes m') eqn:E'; try reflexivity.
  - apply passes_iff in E. rewrite Hl, Hs in E. apply passes_iff in E. congruence.
  - apply passes_iff in E'. rewrite <- Hl, <- Hs in E'. apply passes_iff in E'. congruence.
Qed.

(** What [validate_request] stores depends on the blanks and the length only. *)
Lemma validate_lower_eq rid rid' m m' :
  len m = len m' -> lower m = lower m' ->
  error_message (validate_request (initial_state rid m))
  = error_message (validate_request (initial_state rid' m')).
Proof.
  intros Hl H. rewrite !validate_request_spec. cbn [user_message initial_state].
  rewrite Hl, (lower_eq_all_space _ _ H).
  destruct (all_space m'); [reflexivity|].
  destruct (len m' <? 2); [reflexivity|].
  destruct (len m' >? 1000); reflexivity.
Qed.

Lemma categorize_lower_eq s s' :
  lower (user_message s) = lower (user_message s') ->
  category (categorize_request s) = category (categorize_request s')
  /\ priority (categorize_request s) = priority (categorize_request s').
Proof.
  intros H. unfold categorize_request. rewrite H.
  destruct (any_in authentication_words _); [split; reflexivity|].
  destruct (any_in billing_words _); [split; reflexivity|].
  destruct (any_in technical_words _); [split; reflexivity|].
  destruct (any_in complaint_words _); split; reflexivity.
Qed.

(** High and urgent priorities go with three categories. *)
Lemma categorize_escalation_class s :
  opt_in (priority (categorize_request s)) ["urgent"; "high"]
  || opt_in (category (categorize_request s)) ["complaint"; "technical"]
  = opt_in (category (categorize_request s)) ["billing"; "technical"; "complaint"].
Proof.
  unfold categorize_request.
  destruct (any_in authentication_words _); [reflexivity|].
  destruct (any_in billing_words _); [reflexivity|].
  destruct (any_in technical_words _); [reflexivity|].
  destruct (any_in complaint_words _); reflexivity.
Qed.


(** Every number below 10000 prints as one to four digits. *)
Lemma small_numbers_print_short :
  forallb (fun k => is_ticket_number (str_of_int (Z.of_nat k)))
          (seq 0 (Z.to_nat 10000)) = true.
Proof. vm_compute. reflexivity. Qed.

Lemma ticket_number_printed n :
  0 <= n < 10000 -> is_ticket_number (str_of_int n) = true.
Proof.
  intros Hn. pose proof small_numbers_print_short as H.
  rewrite forallb_forall in H.
  specialize (H (Z.to_nat n)). rewrite Z2Nat.id in H by lia.
  apply H. apply in_seq. lia.
Qed.

End SupportMore.

Import MoreNotions SupportMore.

(** A message that fails validation is handled by [HandleError] alone:
    Categorize, Respond, CheckEscalation and CreateTicket do not run, so
    the final state has no category, no priority and no ticket; it is
    escalated, carries one of the three validation errors and answers
    with the apology that embeds it. *)
Theorem rejected_run_only_handles_error (hash : string -> Z) (rid m : string) :
  passes m = false ->
  run_path hash rid m = [Validate; HandleError]
  /\ category (process_request hash rid m) = None
  /\ priority (process_request hash rid m) = None
  /\ ticket_created (process_request hash rid m) = false
  /\ escalated (process_request hash rid m) = true
  /\ exists e,
       In e validation_errors
       /\ error_message (process_request hash rid m) = Some e
       /\ response (process_request hash rid m) = Some (apology e).
Proof.
  intros H. split; [now apply run_path_rejected|].
  destruct (final_rejected hash rid m H) as (Hc & Hp & He & Ht & _).
  cbn zeta in Hc, Hp, He, Ht. repeat (split; [assumption|]).
  rewrite (process_request_rejected hash rid m H).
  unfold passes in H. revert H.
  rewrite !validate_request_spec. cbn [user_message initial_state].
  unfold validation_errors.
  destruct (all_space m);
    [intros _; eexists; split; [|split; reflexivity]; cbn; tauto|].
  destruct (len m <? 2);
    [intros _; eexists; split; [|split; reflexivity]; cbn; tauto|].
  destruct (len m >? 1000);
    [intros _; eexists; split; [|split; reflexivity]; cbn; tauto|].
  cbn. discriminate.
Qed.

(** The rejected run of the empty message. *)
Lemma rejected_run_only_handles_error_witness :
  passes "" = false
  /\ run_path PyHash.hash_seed0 "REQ011" "" = [Validate; HandleError]
  /\ category (process_request PyHash.hash_seed0 "REQ011" "") = None.
Proof.
  split; [reflexivity|].
  pose proof (rejected_run_only_handles_error PyHash.hash_seed0 "REQ011" "" eq_refl)
    as (Hp & Hc & _).
  split; [exact Hp | exact Hc].
Defined.

(** On a run that passes validation a ticket is created exactly when
    the request is escalated, and it is escalated exactly when its
    category is billing, technical or complaint or its message contains
    an escalation keyword. *)
Theorem escalation_decided_by_category_and_keywords
    (hash : string -> Z) (rid m : string) :
  passes m = true ->
  ticket_created (process_request hash rid m)
  = escalated (process_request hash rid m)
  /\ escalated (process_request hash rid m)
     = opt_in (category (process_request hash rid m))
              ["billing"; "technical"; "complaint"]
       || any_in escalation_words (lower m).
Proof.
  intros H.
  destruct (final_accepted hash rid m H) as (Hc & _ & He & Ht & _).
  cbn zeta in Hc, He, Ht. rewrite Ht, He, Hc. split; [reflexivity|].
  rewrite checked_escalated. cbn zeta.
  now rewrite categorize_escalation_class.
Qed.

(** A billing question is escalated although it asks for nobody. *)
Lemma escalation_decided_by_category_and_keywords_witness :
  passes "How do I update my billing information?" = true
  /\ escalated (process_request PyHash.hash_seed0 "REQ003"
                  "How do I update my billing information?")
     = opt_in (category (process_request PyHash.hash_seed0 "REQ003"
                           "How do I update my billing information?"))
              ["billing"; "technical"; "complaint"]
       || any_in escalation_words (lower "How do I update my billing information?").
Proof.
  split; [reflexivity|].
  exact (proj2 (escalation_decided_by_category_and_keywords PyHash.hash_seed0
                  "REQ003" "How do I update my billing information?" eq_refl)).
Defined.

(** No stage changes [request_id] or [user_message]: every state of a
    run, the final one included, carries the request id and the message
    the run was started with. *)
Theorem run_keeps_request_identity (hash : string -> Z) (rid m : string)
    (s : SupportWorkflowState) :
  In s (process_request hash rid m :: run_states hash rid m) ->
  request_id s = rid /\ user_message s = m.
Proof.
  intros Hin.
  assert (Hin' : In s (run_states hash rid m)).
  { destruct Hin as [<- | Hin]; [apply final_in_run_states | exact Hin]. }
  unfold run_states in Hin'. destruct Hin' as [<- | Hin']; [now split|].
  apply in_map_iff in Hin' as (p & <- & Hp).
  exact (walk_identity hash 7 Validate (initial_state rid m) p Hp).
Qed.

(** The final state of an escalated run. *)
Lemma run_keeps_request_identity_witness :
  request_id (process_request PyHash.hash_seed0 "REQ002"
                "This app is terrible! It keeps crashing!") = "REQ002"
  /\ user_message (process_request PyHash.hash_seed0 "REQ002"
                     "This app is terrible! It keeps crashing!")
     = "This app is terrible! It keeps crashing!".
Proof.
  apply (run_keeps_request_identity PyHash.hash_seed0 "REQ002"
           "This app is terrible! It keeps crashing!").
  left. reflexivity.
Defined.


(** From any state whatever, not only the default one, the walk over
    the graph runs at most six nodes, whatever room it is given; given
    room for seven steps or more it reaches [END], and always in the
    same final state. *)
Theorem graph_reaches_end_from_any_state (hash : string -> Z)
    (s : SupportWorkflowState) (k : nat) :
  (7 <= k)%nat ->
  (length (walk hash k Validate s) <= 6)%nat
  /\ exists s', invoke_from hash k Validate s = Some s'
                /\ invoke hash s = Some s'.
Proof.
  intros Hk. split; [apply (walk_length hash k Validate s)|].
  destruct (invoke_from_some hash k Validate s) as [s' Hs']; [cbn; lia|].
  exists s'. split; [exact Hs'|].
  unfold invoke. rewrite <- Hs'.
  apply invoke_from_stable; cbn; lia.
Qed.

(** A state that arrives escalated and carrying an error, run with a
    bound of 25 nodes. *)
Lemma graph_reaches_end_from_any_state_witness :
  (7 <= 25)%nat
  /\ (length (walk PyHash.hash_seed0 25 Validate
                (mkState "REQ012" "hello there" None None None true false
                         (Some "earlier failure") 0)) <= 6)%nat.
Proof.
  split; [lia|].
  apply (graph_reaches_end_from_any_state PyHash.hash_seed0
           (mkState "REQ012" "hello there" None None None true false
                    (Some "earlier failure") 0) 25).
  lia.
Defined.

(** The ticket identifier is ["TICKET-"] followed by one to four
    decimal digits, never a sign, also when [hash] is negative. *)
Theorem ticket_id_shape (hash : string -> Z) (s : SupportWorkflowState) :
  exists d,
    ticket_id hash s = "TICKET-" +:+ d
    /\ is_ticket_number d = true.
Proof.
  exists (str_of_int (hash (user_message s) mod 10000)).
  split; [reflexivity|].
  apply ticket_number_printed. apply Z.mod_pos_bound. lia.
Qed.

(** The workflow does not tell upper case from lower case: two
    messages of the same length with the same lower-casing end with the
    same category, priority, escalation, ticket flag, error and step
    count.  The length is asked for apart because [validate_request]
    measures the message as it came, not its lower-casing. *)
Theorem workflow_is_case_insensitive (hash hash' : string -> Z)
    (rid rid' m m' : string) :
  len m = len m' ->
  lower m = lower m' ->
  category (process_request hash rid m) = category (process_request hash' rid' m')
  /\ priority (process_request hash rid m) = priority (process_request hash' rid' m')
  /\ escalated (process_request hash rid m) = escalated (process_request hash' rid' m')
  /\ ticket_created (process_request hash rid m)
     = ticket_created (process_request hash' rid' m')
  /\ error_message (process_request hash rid m)
     = error_message (process_request hash' rid' m')
  /\ step_count (process_request hash rid m)
     = step_count (process_request hash' rid' m').
Proof.
  intros Hl H. pose proof (lower_eq_passes _ _ Hl H) as Hp.
  destruct (passes m) eqn:E; symmetry in Hp.
  - destruct (final_accepted hash rid m E) as (Hc & Hpr & He & Ht & Herr).
    destruct (final_accepted hash' rid' m' Hp) as (Hc' & Hpr' & He' & Ht' & Herr').
    cbn zeta in *.
    destruct (categorize_lower_eq (bump (initial_state rid m))
                (bump (initial_state rid' m')) H) as (Kc & Kp).
    assert (Hesc : escalated (checked rid m) = escalated (checked rid' m')).
    { rewrite !checked_escalated. cbn zeta. now rewrite Kc, Kp, H. }
    rewrite Hc, Hc', Hpr, Hpr', He, He', Ht, Ht', Herr, Herr'.
    repeat (split; [congruence|]).
    rewrite (step_count_accepted hash rid m E), (step_count_accepted hash' rid' m' Hp).
    rewrite (run_path_accepted hash rid m E), (run_path_accepted hash' rid' m' Hp).
    now rewrite Hesc.
  - destruct (final_rejected hash rid m E) as (Hc & Hpr & He & Ht & _).
    destruct (final_rejected hash' rid' m' Hp) as (Hc' & Hpr' & He' & Ht' & _).
    cbn zeta in *.
    rewrite Hc, Hc', Hpr, Hpr', He, He', Ht, Ht'.
    repeat (split; [reflexivity|]).
    rewrite (step_count_rejected hash rid m E), (step_count_rejected hash' rid' m' Hp).
    split; [|reflexivity].
    rewrite (process_request_rejected hash rid m E),
            (process_request_rejected hash' rid' m' Hp), !handle_error_eq.
    now apply validate_lower_eq.
Qed.

(** A request shouted and the same request whispered. *)
Lemma workflow_is_case_insensitive_witness :
  len "I WANT A MANAGER" = len "i want a manager"
  /\ lower "I WANT A MANAGER" = lower "i want a manager"
  /\ escalated (process_request PyHash.hash_seed0 "REQ013" "I WANT A MANAGER")
     = escalated (process_request PyHash.hash_seed0 "REQ014" "i want a manager").
Proof.
  split; [reflexivity|]. split; [reflexivity|].
  exact (proj1 (proj2 (proj2
    (workflow_is_case_insensitive PyHash.hash_seed0 PyHash.hash_seed0
       "REQ013" "REQ014" "I WANT A MANAGER" "i want a manager" eq_refl eq_refl)))).
Defined.

(** ** Further properties of [hf_workflow.py] and [simple_workflow.py] *)

Module ServiceFacts.
Import PyStr Exc Gemini MoreNotions.

(** [strip] leaves nothing to strip. *)
Lemma rstrip_head c t :
  isspace c = false -> exists r, rstrip (String c t) = String c r.
Proof.
  intros Hc. cbn [rstrip]. destruct (rstrip t); [rewrite Hc|]; eauto.
Qed.

Lemma rstrip_idempotent s : rstrip (rstrip s) = rstrip s.
Proof.
  induction s as [|c t IH]; [reflexivity|].
  cbn [rstrip]. destruct (rstrip t) as [|d r] eqn:E.
  - destruct (isspace c) eqn:Hc; [reflexivity|]. cbn [rstrip]. now rewrite Hc.
  - cbn [rstrip] in IH |- *. now rewrite IH.
Qed.

Lemma lstrip_strip s : lstrip (strip s) = strip s.
Proof.
  unfold strip. destruct (lstrip_shape s) as [-> | (c & t & -> & Hc)]; [reflexivity|].
  destruct (rstrip_head c t Hc) as [r ->]. cbn [lstrip]. now rewrite Hc.
Qed.

Lemma strip_idempotent s : strip (strip s) = strip s.
Proof.
  unfold strip at 1. rewrite lstrip_strip. unfold strip. apply rstrip_idempotent.
Qed.

(** A reply with an acceptable status and a JSON body is what [ask]
    returns. *)
Lemma ask_good_reply net prompt status body :
  net prompt = Reply status (Some body) -> status_ok status = true ->
  ask net prompt = Return body.
Proof.
  intros H Hs. unfold ask, post, raise_for_status. rewrite H. cbn [bind fst snd].
  unfold status_ok in Hs. apply negb_true_iff in Hs. rewrite Hs. reflexivity.
Qed.

(** [ask] returns only what came with an acceptable status. *)
Lemma ask_returns net prompt body :
  ask net prompt = Return body ->
  exists status, net prompt = Reply status (Some body) /\ status_ok status = true.
Proof.
  unfold ask, post, raise_for_status. intros H.
  destruct (net prompt) as [what | status b]; cbn [bind fst snd] in H;
    [discriminate|].
  destruct ((400 <=? status) && (status <? 600)) eqn:E; cbn [bind] in H;
    [discriminate|].
  destruct b as [j|]; cbn [response_json] in H; [|discriminate].
  injection H as ->. exists status. split; [reflexivity|].
  unfold status_ok. now rewrite E.
Qed.

Lemma first_text_stripped parts t : first_text parts = Return t -> strip t = t.
Proof.
  unfold first_text.
  destruct (subscript_0 parts) as [part|]; cbn [bind]; [|discriminate].
  destruct (get part "text" (JStr "")) as [text|]; cbn [bind]; [|discriminate].
  destruct text; cbn [strip_json]; try discriminate.
  intros [= <-]. apply strip_idempotent.
Qed.

Lemma gemini_body_parts t :
  candidate_parts (gemini_body t) = Return (JArr [JObj [("text", JStr t)]]).
Proof. reflexivity. Qed.

Lemma gemini_body_text t :
  first_text (JArr [JObj [("text", JStr t)]]) = Return (strip t).
Proof. reflexivity. Qed.

(** *** [hf_workflow.py] *)

Lemma hf_generate_returns self net state :
  exists x,
    HfWorkflow.generate_response self net state
    = Return (HfWorkflow.set_response state (Some x)).
Proof.
  unfold HfWorkflow.generate_response, HfWorkflow.fallback.
  destruct (HfWorkflow.use_llm self); [|eauto].
  destruct (HfWorkflow._get_llm_response net state); cbn [bind try_except]; eauto.
Qed.

Lemma hf_check_category s :
  HfWorkflow.category (HfWorkflow.check_escalation s) = HfWorkflow.category s.
Proof. unfold HfWorkflow.check_escalation. repeat case_match; reflexivity. Qed.

Lemma hf_check_priority s :
  HfWorkflow.priority (HfWorkflow.check_escalation s) = HfWorkflow.priority s.
Proof. unfold HfWorkflow.check_escalation. repeat case_match; reflexivity. Qed.

Lemma hf_check_escalated s :
  HfWorkflow.escalated (HfWorkflow.check_escalation s)
  = any_in ["angry"; "frustrated"; "manager"] (lower (HfWorkflow.message s))
    || HfWorkflow.escalated s.
Proof. unfold HfWorkflow.check_escalation. repeat case_match; reflexivity. Qed.

Lemma hf_check_response s :
  HfWorkflow.response (HfWorkflow.check_escalation s)
  = if any_in ["angry"; "frustrated"; "manager"] (lower (HfWorkflow.message s))
       && truthy_opt (HfWorkflow.response s)
    then Some (fmt_opt (HfWorkflow.response s) +:+ HfWorkflow.escalation_notice)
    else HfWorkflow.response s.
Proof.
  unfold HfWorkflow.check_escalation.
  destruct (any_in _ _); cbn [andb]; [|reflexivity].
  cbn [HfWorkflow.response HfWorkflow.set_escalated].
  destruct (truthy_opt (HfWorkflow.response s)); reflexivity.
Qed.

Lemma hf_set_priority_category s :
  HfWorkflow.category (HfWorkflow.set_priority s) = HfWorkflow.category s.
Proof. unfold HfWorkflow.set_priority. repeat case_match; reflexivity. Qed.

Lemma hf_set_priority_message s :
  HfWorkflow.message (HfWorkflow.set_priority s) = HfWorkflow.message s.
Proof. unfold HfWorkflow.set_priority. repeat case_match; reflexivity. Qed.

Lemma hf_categorize_message s :
  HfWorkflow.message (HfWorkflow.categorize s) = HfWorkflow.message s.
Proof. unfold HfWorkflow.categorize. repeat case_match; reflexivity. Qed.

(** The shape of every run. *)
Lemma hf_run_shape self net m :
  exists x,
    HfWorkflow.run self net m
    = Return (HfWorkflow.check_escalation
                (HfWorkflow.set_response
                   (HfWorkflow.set_priority
                      (HfWorkflow.categorize (HfWorkflow.new_state m)))
                   (Some x))).
Proof.
  unfold HfWorkflow.run.
  destruct (hf_generate_returns self net
              (HfWorkflow.set_priority
                 (HfWorkflow.categorize (HfWorkflow.new_state m)))) as [x ->].
  exists x. reflexivity.
Qed.

(** *** [simple_workflow.py] *)

Lemma simple_message_kept m :
  SimpleWorkflow.data_get
    (SimpleWorkflow.validate_input
       (SimpleWorkflow.store {| SimpleWorkflow.data := ∅ |} "message" m))
    "message" "" = m.
Proof.
  unfold SimpleWorkflow.validate_input.
  rewrite FallbackFacts.simple_data_get_store.
  destruct (len m <? 5); [|apply FallbackFacts.simple_data_get_store].
  unfold SimpleWorkflow.data_get, SimpleWorkflow.store. cbn [SimpleWorkflow.data].
  rewrite lookup_insert_ne by discriminate. now rewrite lookup_insert_eq.
Qed.

Lemma simple_category_lookup state c :
  SimpleWorkflow.data (SimpleWorkflow.store state "category" c) !! "category" = Some c.
Proof. unfold SimpleWorkflow.store. cbn [SimpleWorkflow.data]. apply lookup_insert_eq. Qed.

(** The fallback text after [categorize_request], by keyword. *)
Lemma simple_fallback_after_categorize state :
  SimpleWorkflow.fallback_response (SimpleWorkflow.categorize_request state)
  = let message := lower (SimpleWorkflow.data_get state "message" "") in
    if contains "password" message then "Reset your password on the login page"
    else if contains "billing" message then "Contact billing@company.com"
    else "Thanks for contacting us".
Proof.
  cbn zeta. unfold SimpleWorkflow.categorize_request, SimpleWorkflow.fallback_response.
  destruct (contains "password" _); [now rewrite simple_category_lookup|].
  destruct (contains "billing" _); now rewrite simple_category_lookup.
Qed.

Lemma simple_try_llm_returns net state state' :
  SimpleWorkflow.try_llm net state = Return (Some state') ->
  exists t,
    state' = SimpleWorkflow.store state "response" t
    /\ strip t = t
    /\ exists status body,
         net (SimpleWorkflow.prompt_of state) = Reply status (Some body)
         /\ status_ok status = true.
Proof.
  unfold SimpleWorkflow.try_llm. intros H.
  destruct (ask net (SimpleWorkflow.prompt_of state)) as [body|] eqn:E;
    cbn [bind] in H; [|discriminate].
  destruct (candidate_parts body) as [parts|]; cbn [bind] in H; [|discriminate].
  destruct (truthy_json parts); [|discriminate].
  destruct (first_text parts) as [t|] eqn:Ht; cbn [bind] in H; [|discriminate].
  injection H as <-. exists t. split; [reflexivity|].
  split; [exact (first_text_stripped parts t Ht)|].
  destruct (ask_returns net _ body E) as (status & Hs & Hok). eauto.
Qed.

End ServiceFacts.

(** ** The claim about the generation service failing *)

Module FallbackMore.
Import Exc Gemini PyStr FallbackNotions FallbackFacts ServiceFacts.










End FallbackMore.

Import FallbackNotions FallbackMore.




Import ServiceFacts.

(** [GeminiWorkflow.run] always returns, with a response set, and the
    service has no say in the routing: two runs on the same message end
    with the same category, priority and escalation whatever the service
    replies and whether or not it is used. *)
Theorem hf_service_cannot_change_routing
    (self self' : HfWorkflow.GeminiWorkflow) (net net' : Gemini.service) (m : string) :
  exists st st',
    HfWorkflow.run self net m = Exc.Return st
    /\ HfWorkflow.run self' net' m = Exc.Return st'
    /\ HfWorkflow.category st = HfWorkflow.category st'
    /\ HfWorkflow.priority st = HfWorkflow.priority st'
    /\ HfWorkflow.escalated st = HfWorkflow.escalated st'
    /\ HfWorkflow.response st <> None.
Proof.
  destruct (hf_run_shape self net m) as [x Hx].
  destruct (hf_run_shape self' net' m) as [x' Hx'].
  eexists. eexists. split; [exact Hx|]. split; [exact Hx'|].
  rewrite !hf_check_category, !hf_check_priority, !hf_check_escalated, hf_check_response.
  cbn [HfWorkflow.category HfWorkflow.priority HfWorkflow.escalated
       HfWorkflow.message HfWorkflow.response HfWorkflow.set_response].
  repeat (split; [reflexivity|]).
  destruct (_ && _); discriminate.
Qed.

(** In [hf_workflow.py] an urgency keyword (urgent, asap, critical)
    forces priority high whatever the category; without one, billing and
    technical requests get medium and all others low. *)
Theorem hf_urgency_forces_high_priority
    (self : HfWorkflow.GeminiWorkflow) (net : Gemini.service) (m : string)
    (st : HfWorkflow.WorkflowState) :
  HfWorkflow.run self net m = Exc.Return st ->
  HfWorkflow.priority st
  = Some (if any_in HfWorkflow.urgency_words (lower m) then "high"
          else if opt_in (HfWorkflow.category st) ["billing"; "technical"]
               then "medium" else "low").
Proof.
  intros H. destruct (hf_run_shape self net m) as [x Hx].
  rewrite Hx in H. injection H as <-.
  rewrite hf_check_priority, hf_check_category.
  cbn [HfWorkflow.category HfWorkflow.priority HfWorkflow.set_response].
  rewrite hf_set_priority_category.
  unfold HfWorkflow.set_priority. rewrite hf_categorize_message.
  cbn [HfWorkflow.message HfWorkflow.new_state].
  destruct (any_in HfWorkflow.urgency_words (lower m)); [reflexivity|].
  destruct (opt_in _ _); reflexivity.
Qed.

(** An urgent password request, the service being down. *)
Lemma hf_urgency_forces_high_priority_witness :
  exists st,
    HfWorkflow.run {| HfWorkflow.api_key := "key"; HfWorkflow.use_llm := true |}
      (fun _ => Gemini.NoReply "down") "I forgot my password and need help urgently"
    = Exc.Return st
    /\ HfWorkflow.priority st = Some "high".
Proof.
  eexists. split; [reflexivity|].
  exact (hf_urgency_forces_high_priority
           {| HfWorkflow.api_key := "key"; HfWorkflow.use_llm := true |}
           (fun _ => Gemini.NoReply "down")
           "I forgot my password and need help urgently" _ eq_refl).
Defined.

(** When the service answers with an acceptable status and a body
    carrying the text [t], the response of [GeminiWorkflow.run] is [t]
    stripped, followed by the escalation notice when the message calls
    for escalation and the stripped text is not empty.  A blank text
    therefore gives an empty response: no fallback, no notice. *)
Theorem hf_reply_text_becomes_response
    (self : HfWorkflow.GeminiWorkflow) (net : Gemini.service) (m : string)
    (status : Z) (t : string) :
  HfWorkflow.use_llm self = true ->
  net (HfWorkflow.prompt_of
         (HfWorkflow.set_priority (HfWorkflow.categorize (HfWorkflow.new_state m))))
  = Gemini.Reply status (Some (gemini_body t)) ->
  status_ok status = true ->
  exists st,
    HfWorkflow.run self net m = Exc.Return st
    /\ HfWorkflow.response st
       = Some (if any_in ["angry"; "frustrated"; "manager"] (lower m)
                  && truthy (strip t)
               then strip t +:+ HfWorkflow.escalation_notice
               else strip t).
Proof.
  intros Hllm Hnet Hok. unfold HfWorkflow.run, HfWorkflow.generate_response.
  rewrite Hllm. unfold HfWorkflow._get_llm_response.
  rewrite (ask_good_reply _ _ _ _ Hnet Hok). cbn [Exc.bind].
  rewrite gemini_body_parts. cbn [Exc.bind Gemini.truthy_json].
  rewrite gemini_body_text. cbn [Exc.bind Exc.try_except].
  eexists. split; [reflexivity|].
  rewrite hf_check_response.
  cbn [HfWorkflow.message HfWorkflow.response HfWorkflow.set_response].
  rewrite hf_set_priority_message, hf_categorize_message.
  cbn [HfWorkflow.message HfWorkflow.new_state truthy_opt fmt_opt].
  destruct (_ && _); reflexivity.
Qed.

(** An angry customer and a service that answers with blanks. *)
Lemma hf_reply_text_becomes_response_witness :
  exists st,
    HfWorkflow.run {| HfWorkflow.api_key := "key"; HfWorkflow.use_llm := true |}
      (fun _ => Gemini.Reply 200 (Some (gemini_body "   "))) "I am angry"
    = Exc.Return st
    /\ HfWorkflow.response st
       = Some (if any_in ["angry"; "frustrated"; "manager"] (lower "I am angry")
                  && truthy (strip "   ")
               then strip "   " +:+ HfWorkflow.escalation_notice
               else strip "   ").
Proof.
  apply (hf_reply_text_becomes_response
           {| HfWorkflow.api_key := "key"; HfWorkflow.use_llm := true |}
           (fun _ => Gemini.Reply 200 (Some (gemini_body "   "))) "I am angry"
           200 "   "); reflexivity.
Defined.

(** A text [_get_llm_response] returns has no blanks around it, and it
    comes from a reply with a JSON body and a status outside 400-599. *)
Theorem llm_text_is_stripped_and_from_good_reply
    (net : Gemini.service) (state : HfWorkflow.WorkflowState) (t : string) :
  HfWorkflow._get_llm_response net state = Exc.Return t ->
  strip t = t
  /\ exists status body,
       net (HfWorkflow.prompt_of state) = Gemini.Reply status (Some body)
       /\ status_ok status = true.
Proof.
  unfold HfWorkflow._get_llm_response. intros H.
  destruct (Gemini.ask net (HfWorkflow.prompt_of state)) as [body|] eqn:E;
    cbn [Exc.bind] in H; [|discriminate].
  destruct (Gemini.candidate_parts body) as [parts|]; cbn [Exc.bind] in H;
    [|discriminate].
  destruct (Gemini.truthy_json parts); [|discriminate].
  split; [exact (first_text_stripped parts t H)|].
  destruct (ask_returns net _ body E) as (status & Hs & Hok). eauto.
Qed.

(** A text sent with blanks around it. *)
Lemma llm_text_is_stripped_and_from_good_reply_witness :
  HfWorkflow._get_llm_response
    (fun _ => Gemini.Reply 200 (Some (gemini_body "  Sure, happy to help.  ")))
    (HfWorkflow.new_state "hello")
  = Exc.Return "Sure, happy to help."
  /\ strip "Sure, happy to help." = "Sure, happy to help.".
Proof.
  split; [reflexivity|].
  exact (proj1 (llm_text_is_stripped_and_from_good_reply
                  (fun _ => Gemini.Reply 200 (Some (gemini_body "  Sure, happy to help.  ")))
                  (HfWorkflow.new_state "hello") "Sure, happy to help." eq_refl)).
Defined.

(** Without the service, or when the call to it raises,
    [WorkflowAgent.run_workflow] answers by keyword: the password text,
    else the billing text, else the general one.  This holds for every
    message, also one shorter than five characters: [validate_input]
    records an error for it but nothing reads it. *)
Theorem simple_fallback_answers_by_keyword
    (self : SimpleWorkflow.WorkflowAgent) (net : Gemini.service) (m : string) :
  SimpleWorkflow.use_llm self = false
  \/ Exc.raises
       (SimpleWorkflow.try_llm net
          (SimpleWorkflow.categorize_request
             (SimpleWorkflow.validate_input
                (SimpleWorkflow.store {| SimpleWorkflow.data := ∅ |} "message" m)))) ->
  SimpleWorkflow.run_workflow self net m
  = Exc.Return
      (if contains "password" (lower m) then "Reset your password on the login page"
       else if contains "billing" (lower m) then "Contact billing@company.com"
       else "Thanks for contacting us").
Proof.
  intros H. unfold SimpleWorkflow.run_workflow.
  set (st := SimpleWorkflow.validate_input _).
  assert (G : SimpleWorkflow.generate_response self net
                (SimpleWorkflow.categorize_request st)
              = Exc.Return
                  (SimpleWorkflow.store (SimpleWorkflow.categorize_request st) "response"
                     (SimpleWorkflow.fallback_response
                        (SimpleWorkflow.categorize_request st)))).
  { destruct H as [H | H].
    - unfold SimpleWorkflow.generate_response. rewrite H. reflexivity.
    - now apply FallbackFacts.simple_generate_on_failure. }
  rewrite G. cbn [Exc.bind].
  rewrite FallbackFacts.simple_data_get_store, simple_fallback_after_categorize.
  cbn zeta. subst st. now rewrite simple_message_kept.
Qed.

(** The two-character message ["Hi"], the service switched off. *)
Lemma simple_fallback_answers_by_keyword_witness :
  SimpleWorkflow.run_workflow
    {| SimpleWorkflow.api_key := "key"; SimpleWorkflow.use_llm := false |}
    (fun _ => Gemini.NoReply "unused") "Hi"
  = Exc.Return
      (if contains "password" (lower "Hi") then "Reset your password on the login page"
       else if contains "billing" (lower "Hi") then "Contact billing@company.com"
       else "Thanks for contacting us").
Proof.
  apply (simple_fallback_answers_by_keyword
           {| SimpleWorkflow.api_key := "key"; SimpleWorkflow.use_llm := false |}
           (fun _ => Gemini.NoReply "unused") "Hi").
  left. reflexivity.
Defined.

(** [WorkflowAgent.run_workflow] never raises, whatever the service
    does and whatever the message: it returns the keyword answer of the
    fallback, or a text that has no blanks around it and came with a
    JSON body under a status outside 400-599. *)
Theorem simple_run_always_returns
    (self : SimpleWorkflow.WorkflowAgent) (net : Gemini.service) (m : string) :
  exists text,
    SimpleWorkflow.run_workflow self net m = Exc.Return text
    /\ (text = (if contains "password" (lower m)
                then "Reset your password on the login page"
                else if contains "billing" (lower m)
                     then "Contact billing@company.com"
                     else "Thanks for contacting us")
        \/ (strip text = text
            /\ exists status body,
                 net (SimpleWorkflow.prompt_of
                        (SimpleWorkflow.categorize_request
                           (SimpleWorkflow.validate_input
                              (SimpleWorkflow.store {| SimpleWorkflow.data := ∅ |}
                                                    "message" m))))
                 = Gemini.Reply status (Some body)
                 /\ status_ok status = true)).
Proof.
  unfold SimpleWorkflow.run_workflow.
  set (st := SimpleWorkflow.categorize_request _).
  assert (F : SimpleWorkflow.data_get
                (SimpleWorkflow.store st "response" (SimpleWorkflow.fallback_response st))
                "response" "Error processing request"
              = (if contains "password" (lower m)
                 then "Reset your password on the login page"
                 else if contains "billing" (lower m)
                      then "Contact billing@company.com"
                      else "Thanks for contacting us")).
  { rewrite FallbackFacts.simple_data_get_store. subst st.
    rewrite simple_fallback_after_categorize. cbn zeta.
    now rewrite simple_message_kept. }
  unfold SimpleWorkflow.generate_response.
  destruct (SimpleWorkflow.use_llm self); cbn [Exc.bind];
    [|eexists; split; [reflexivity|]; left; exact F].
  destruct (SimpleWorkflow.try_llm net st) as [[st'|]|e] eqn:E;
    cbn [Exc.try_except Exc.bind];
    [|eexists; split; [reflexivity|]; left; exact F
     |eexists; split; [reflexivity|]; left; exact F].
  destruct (simple_try_llm_returns net st st' E) as (t & -> & Ht & Hnet).
  exists t. split; [now rewrite FallbackFacts.simple_data_get_store|].
  right. split; [exact Ht | exact Hnet].
Qed.

(** When the service answers with an acceptable status and a body
    carrying the text [t], [WorkflowAgent.run_workflow] returns [t]
    stripped, be it empty. *)
Theorem simple_reply_text_is_returned
    (self : SimpleWorkflow.WorkflowAgent) (net : Gemini.service) (m : string)
    (status : Z) (t : string) :
  SimpleWorkflow.use_llm self = true ->
  net (SimpleWorkflow.prompt_of
         (SimpleWorkflow.categorize_request
            (SimpleWorkflow.validate_input
               (SimpleWorkflow.store {| SimpleWorkflow.data := ∅ |} "message" m))))
  = Gemini.Reply status (Some (gemini_body t)) ->
  status_ok status = true ->
  SimpleWorkflow.run_workflow self net m = Exc.Return (strip t).
Proof.
  intros Hllm Hnet Hok.
  unfold SimpleWorkflow.run_workflow, SimpleWorkflow.generate_response.
  rewrite Hllm. unfold SimpleWorkflow.try_llm.
  rewrite (ask_good_reply _ _ _ _ Hnet Hok). cbn [Exc.bind].
  rewrite gemini_body_parts. cbn [Exc.bind Gemini.truthy_json].
  rewrite gemini_body_text. cbn [Exc.bind Exc.try_except].
  now rewrite FallbackFacts.simple_data_get_store.
Qed.

(** A reply to a message [validate_input] finds too short. *)
Lemma simple_reply_text_is_returned_witness :
  SimpleWorkflow.run_workflow
    {| SimpleWorkflow.api_key := "key"; SimpleWorkflow.use_llm := true |}
    (fun _ => Gemini.Reply 200 (Some (gemini_body " Hello! ")))
    "Hi"
  = Exc.Return (strip " Hello! ").
Proof.
  apply (simple_reply_text_is_returned
           {| SimpleWorkflow.api_key := "key"; SimpleWorkflow.use_llm := true |}
           (fun _ => Gemini.Reply 200 (Some (gemini_body " Hello! "))) "Hi"
           200 " Hello! "); reflexivity.
Defined.

(** ** Properties of [support_agent.py], [simple_crew.py] and [sales_conversation.py] *)

Module ScriptFacts.
Import PyStr Exc Gemini GeminiCall MoreNotions ServiceFacts.

Lemma startswith_append p s : startswith p (p +:+ s) = true.
Proof.
  induction p as [|c p IH]; [reflexivity|].
  change (String c p +:+ s) with (String c (p +:+ s)).
  cbn [startswith]. now rewrite Ascii.eqb_refl, IH.
Qed.

Lemma append_assoc (a b c : string) : (a +:+ b) +:+ c = a +:+ (b +:+ c).
Proof.
  induction a as [|x a IH]; [reflexivity|].
  change (String x (a +:+ b) +:+ c = String x (a +:+ (b +:+ c))).
  change (String x ((a +:+ b) +:+ c) = String x (a +:+ (b +:+ c))).
  now rewrite IH.
Qed.

(** *** [support_agent.py] *)

Lemma first_answer_found faqs text a :
  SupportAgent.first_answer faqs text = Some a ->
  exists k, In (k, a) faqs /\ contains k text = true.
Proof.
  induction faqs as [|[k b] rest IH]; cbn [SupportAgent.first_answer]; [discriminate|].
  destruct (contains k text) eqn:E.
  - intros [= <-]. exists k. split; [now left | exact E].
  - intros H. destruct (IH H) as (k' & Hin & Hc). exists k'. split; [now right | exact Hc].
Qed.

Lemma faq_answers_nonempty k a : In (k, a) SupportAgent.FAQS -> truthy a = true.
Proof.
  unfold SupportAgent.FAQS. cbn [In].
  intros [H | [H | [H | []]]]; injection H as _ <-; reflexivity.
Qed.

Lemma support_fallback_nonempty m :
  truthy (SupportAgent._get_fallback_response m) = true.
Proof. unfold SupportAgent._get_fallback_response. repeat case_match; reflexivity. Qed.

(** *** [simple_crew.py] *)

Lemma work_returns self net task :
  exists r,
    SimpleCrew.work self net task = Return r
    /\ startswith (SimpleCrew.role self +:+ ": ") r = true.
Proof.
  unfold SimpleCrew.work, SimpleCrew._get_llm_response,
    SimpleCrew._get_fallback_response.
  assert (F : startswith (SimpleCrew.role self +:+ ": ")
                (SimpleCrew.role self +:+ ": Completed task - " +:+ task) = true).
  { change (SimpleCrew.role self +:+ ": Completed task - " +:+ task)
      with (SimpleCrew.role self +:+ (": " +:+ ("Completed task - " +:+ task))).
    rewrite <- append_assoc. apply startswith_append. }
  destruct (SimpleCrew.use_llm self); [|eauto].
  destruct (llm_text net _) as [text|]; cbn [bind try_except]; [|eauto].
  eexists. split; [reflexivity|].
  rewrite <- append_assoc. apply startswith_append.
Qed.

Lemma pick_nonempty agents i :
  agents <> [] ->
  exists a,
    SimpleCrew.pick agents i = SimpleCrew.Done a
    /\ agents !! (i mod length agents)%nat = Some a.
Proof.
  intros Hne. unfold SimpleCrew.pick.
  destruct (length agents) as [|n] eqn:E.
  - destruct agents; [congruence | discriminate].
  - assert (Hlt : (i mod S n < length agents)%nat)
      by (rewrite E; apply Nat.mod_upper_bound; lia).
    destruct (nth_error agents (i mod S n)) as [a|] eqn:Ha.
    + exists a. split; [reflexivity|].
      rewrite <- Ha. symmetry. clear. revert agents.
      generalize (i mod S n)%nat. intros j agents. revert j.
      induction agents as [|x l IH]; intros [|j]; cbn; auto.
    + apply nth_error_None in Ha. lia.
Qed.

(** The loop of [kickoff]: one result more per task, each from the
    agent whose turn it is. *)
Lemma kickoff_from_spec agents net : forall tasks i results,
  agents <> [] ->
  exists more,
    SimpleCrew.kickoff_from agents net i tasks results = SimpleCrew.Done (results ++ more)%list
    /\ length more = length tasks
    /\ forall (j : nat) r, more !! j = Some r ->
         exists a, agents !! ((i + j) mod length agents)%nat = Some a
                   /\ startswith (SimpleCrew.role a +:+ ": ") r = true.
Proof.
  induction tasks as [|task rest IH]; intros i results Hne.
  - exists []. cbn [SimpleCrew.kickoff_from]. rewrite app_nil_r.
    split; [reflexivity|]. split; [reflexivity|]. intros j r Hj. discriminate Hj.
  - cbn [SimpleCrew.kickoff_from].
    destruct (pick_nonempty agents i Hne) as (a & -> & Ha).
    destruct (work_returns a net task) as (r & -> & Hr).
    destruct (IH (S i) (results ++ [r])%list Hne) as (more & -> & Hlen & Hall).
    exists (r :: more). rewrite <- app_assoc. split; [reflexivity|].
    split; [cbn [length]; now rewrite Hlen|].
    intros [|j] r' Hj.
    + injection Hj as <-. exists a. rewrite Nat.add_0_r. now split.
    + cbn in Hj. destruct (Hall j r' Hj) as (a' & Ha' & Hr').
      exists a'. split; [|exact Hr'].
      now replace (i + S j)%nat with (S i + j)%nat by lia.
Qed.

(** *** [sales_conversation.py] *)

Lemma try_gemini_returns net prompt t :
  SalesConversation.try_gemini net prompt = Return (Some t) ->
  strip t = t
  /\ exists status body,
       net prompt = Reply status (Some body) /\ status_ok status = true.
Proof.
  unfold SalesConversation.try_gemini. intros H.
  destruct (ask net prompt) as [body|] eqn:E; cbn [bind] in H; [|discriminate].
  destruct (candidate_parts body) as [parts|]; cbn [bind] in H; [|discriminate].
  destruct (truthy_json parts); [|discriminate].
  destruct (first_text parts) as [text|] eqn:Ht; cbn [bind] in H; [|discriminate].
  injection H as ->.
  split; [exact (first_text_stripped parts t Ht)|].
  destruct (ask_returns net _ body E) as (status & Hs & Hok). eauto.
Qed.

Lemma call_gemini_never_raises_aux net prompt :
  exists text, SalesConversation.call_gemini net prompt = Return text.
Proof.
  unfold SalesConversation.call_gemini.
  destruct (SalesConversation.try_gemini net prompt) as [[t|]|e];
    cbn [try_except bind]; eauto.
Qed.

Lemma last_of_app first pre msg :
  SalesConversation.last_of first (pre ++ [msg])%list = msg.
Proof.
  revert first. induction pre as [|x pre IH]; intros first; [reflexivity|].
  cbn [app SalesConversation.last_of]. apply IH.
Qed.

End ScriptFacts.

Import ScriptFacts.

(** A question that matches a FAQ keyword is answered from [FAQS]
    without the service: whatever the service does and whether or not it
    is switched on, [process] returns "I can help! " followed by the
    answer of a keyword that occurs in the lower-cased message. *)
Theorem faq_hit_bypasses_service
    (self self' : SupportAgent.SupportAgent) (net net' : Gemini.service) (m a : string) :
  SupportAgent.lookup_faq m = Some a ->
  SupportAgent.process self net m = Exc.Return ("I can help! " +:+ a)
  /\ SupportAgent.process self' net' m = SupportAgent.process self net m
  /\ exists k, In (k, a) SupportAgent.FAQS /\ contains k (lower m) = true.
Proof.
  intros H. destruct (first_answer_found _ _ _ H) as (k & Hin & Hk).
  pose proof (faq_answers_nonempty k a Hin) as Ha.
  unfold SupportAgent.process. rewrite H. cbn [truthy_opt fmt_opt]. rewrite Ha.
  split; [reflexivity|]. split; [reflexivity|]. eauto.
Qed.

(** A billing question that also mentions a password. *)
Lemma faq_hit_bypasses_service_witness :
  SupportAgent.lookup_faq "Billing page rejects my PASSWORD"
  = Some "Click 'Forgot Password' on login page"
  /\ SupportAgent.process
       {| SupportAgent.api_key := "key"; SupportAgent.use_llm := true |}
       (fun _ => Gemini.NoReply "down") "Billing page rejects my PASSWORD"
     = Exc.Return ("I can help! " +:+ "Click 'Forgot Password' on login page").
Proof.
  split; [reflexivity|].
  exact (proj1 (faq_hit_bypasses_service
                  {| SupportAgent.api_key := "key"; SupportAgent.use_llm := true |}
                  {| SupportAgent.api_key := "key"; SupportAgent.use_llm := true |}
                  (fun _ => Gemini.NoReply "down") (fun _ => Gemini.NoReply "down")
                  "Billing page rejects my PASSWORD"
                  "Click 'Forgot Password' on login page" eq_refl)).
Defined.

(** [SupportAgent.process] never raises, and its answer is empty in one
    case only: the service is on and returned a blank text. *)
Theorem support_agent_always_answers
    (self : SupportAgent.SupportAgent) (net : Gemini.service) (m : string) :
  exists text,
    SupportAgent.process self net m = Exc.Return text
    /\ (truthy text = true
        \/ (SupportAgent.use_llm self = true
            /\ SupportAgent._get_llm_response net m = Exc.Return "")).
Proof.
  unfold SupportAgent.process.
  destruct (SupportAgent.lookup_faq m) as [a|] eqn:H.
  - destruct (first_answer_found _ _ _ H) as (k & Hin & _).
    rewrite (faq_answers_nonempty k a Hin : truthy_opt (Some a) = true).
    eexists. split; [reflexivity|]. now left.
  - cbn [truthy_opt].
    destruct (SupportAgent.use_llm self);
      [|eexists; split; [reflexivity|]; left; apply support_fallback_nonempty].
    destruct (SupportAgent._get_llm_response net m) as [t|e]; cbn [Exc.try_except].
    + exists t. split; [reflexivity|].
      destruct t; [right; now split | now left].
    + eexists. split; [reflexivity|]. left. apply support_fallback_nonempty.
Qed.

(** With at least one agent, [Crew.kickoff] returns one result per task,
    in order, and the result of task [i] comes from agent
    [i mod len(agents)]: it starts with that agent's role and a colon.
    A crew without agents returns the empty list for no task and fails
    with [ZeroDivisionError] on the first task otherwise. *)
Theorem kickoff_assigns_round_robin
    (agents : list SimpleCrew.Agent) (net : Gemini.service) (tasks : list string) :
  (agents <> [] ->
   exists results,
     SimpleCrew.kickoff agents net tasks = SimpleCrew.Done results
     /\ length results = length tasks
     /\ forall (i : nat) r, results !! i = Some r ->
          exists a, agents !! (i mod length agents)%nat = Some a
                    /\ startswith (SimpleCrew.role a +:+ ": ") r = true)
  /\ SimpleCrew.kickoff [] net tasks
     = match tasks with
       | [] => SimpleCrew.Done []
       | _ :: _ => SimpleCrew.Failed SimpleCrew.ZeroDivisionError
       end.
Proof.
  split; [|destruct tasks; reflexivity].
  intros Hne. unfold SimpleCrew.kickoff.
  destruct (kickoff_from_spec agents net tasks 0 [] Hne) as (more & H & Hlen & Hall).
  exists more. split; [exact H|]. split; [exact Hlen|]. exact Hall.
Qed.

(** The crew of [create_crew] without a key, on four tasks: the fourth
    goes back to the first agent. *)
Lemma kickoff_assigns_round_robin_witness :
  SimpleCrew.create_crew None true <> []
  /\ exists results,
       SimpleCrew.kickoff (SimpleCrew.create_crew None true)
         (fun _ => Gemini.NoReply "unused") ["a"; "b"; "c"; "d"]
       = SimpleCrew.Done results
       /\ length results = length ["a"; "b"; "c"; "d"]
       /\ forall (i : nat) r, results !! i = Some r ->
            exists a,
              SimpleCrew.create_crew None true
                !! (i mod length (SimpleCrew.create_crew None true))%nat = Some a
              /\ startswith (SimpleCrew.role a +:+ ": ") r = true.
Proof.
  assert (H : SimpleCrew.create_crew None true <> []) by discriminate.
  split; [exact H|].
  exact (proj1 (kickoff_assigns_round_robin (SimpleCrew.create_crew None true)
                  (fun _ => Gemini.NoReply "unused") ["a"; "b"; "c"; "d"]) H).
Defined.

(** An agent created without an API key ([None] or the empty string)
    never calls the service, even when asked to use it: [work] returns
    the canned completion text. *)
Theorem agent_without_key_skips_service
    (role goal : string) (api_key : option string) (use_llm : bool)
    (net : Gemini.service) (task : string) :
  truthy_opt api_key = false ->
  SimpleCrew.work (SimpleCrew.new_agent role goal api_key use_llm) net task
  = Exc.Return (role +:+ ": Completed task - " +:+ task).
Proof.
  intros H. unfold SimpleCrew.work, SimpleCrew.new_agent.
  cbn [SimpleCrew.use_llm]. rewrite H, andb_false_r. reflexivity.
Qed.

(** An agent given the empty key. *)
Lemma agent_without_key_skips_service_witness :
  SimpleCrew.work (SimpleCrew.new_agent "Summarizer" "Create document summaries"
                     (Some "") true)
    (fun _ => Gemini.Reply 200 (Some (gemini_body "A summary.")))
    "Generate executive summary"
  = Exc.Return ("Summarizer" +:+ ": Completed task - " +:+ "Generate executive summary").
Proof.
  apply (agent_without_key_skips_service "Summarizer" "Create document summaries"
           (Some "") true).
  reflexivity.
Defined.

(** [call_gemini] never raises: it returns the default sentence, or a
    text that has no blanks around it and came with a JSON body under a
    status outside 400-599. *)
Theorem call_gemini_never_raises (net : Gemini.service) (prompt : string) :
  exists text,
    SalesConversation.call_gemini net prompt = Exc.Return text
    /\ (text = SalesConversation.default_reply
        \/ (strip text = text
            /\ exists status body,
                 net prompt = Gemini.Reply status (Some body)
                 /\ status_ok status = true)).
Proof.
  unfold SalesConversation.call_gemini.
  destruct (SalesConversation.try_gemini net prompt) as [[t|]|e] eqn:E;
    cbn [Exc.try_except Exc.bind].
  - exists t. split; [reflexivity|]. right. exact (try_gemini_returns net prompt t E).
  - eexists. split; [reflexivity|]. now left.
  - eexists. split; [reflexivity|]. now left.
Qed.

(** [GeminiAgent.generate_reply] answers [None] to an empty history and
    otherwise depends on the last message only. *)
Theorem generate_reply_reads_last_message
    (net : Gemini.service) (earlier : list (gmap string string))
    (last : gmap string string) :
  SalesConversation.generate_reply net [] = Exc.Return None
  /\ SalesConversation.generate_reply net (earlier ++ [last])%list
     = SalesConversation.generate_reply net [last]
  /\ exists text,
       SalesConversation.generate_reply net (earlier ++ [last])%list
       = Exc.Return (Some text).
Proof.
  split; [reflexivity|].
  assert (H : SalesConversation.generate_reply net (earlier ++ [last])%list
              = SalesConversation.generate_reply net [last]).
  { destruct earlier as [|first pre]; [reflexivity|].
    cbn [app SalesConversation.generate_reply].
    now rewrite last_of_app. }
  split; [exact H|]. rewrite H. cbn [SalesConversation.generate_reply].
  destruct (call_gemini_never_raises_aux net
              (SalesConversation.prompt_of
                 match SalesConversation.last_of last [] !! "content" with
                 | Some c => c
                 | None => ""
                 end)) as [text ->].
  eexists. reflexivity.
Qed.

(** ** Properties of [simple_conversation.py] *)

Module ConversationFacts.
Import PyStr Exc SessionNotions ScriptFacts.

Lemma respond_returns self hf m :
  exists r,
    SimpleConversation.respond self hf m = Return r
    /\ (SimpleConversation.llm_ready self = false ->
        r = SimpleConversation.respond_with_rules m).
Proof.
  unfold SimpleConversation.respond, SimpleConversation.respond_with_llm.
  destruct (SimpleConversation.llm_ready self).
  - destruct (hf _); cbn [bind try_except]; eexists; (split; [reflexivity | discriminate]).
  - eexists. split; reflexivity.
Qed.

(** What one [chat] does to the agent. *)
Lemma chat_spec self hf m :
  exists r,
    SimpleConversation.chat self hf m
    = ({| SimpleConversation.name := SimpleConversation.name self;
          SimpleConversation.role := SimpleConversation.role self;
          SimpleConversation.conversation :=
            (SimpleConversation.conversation self
             ++ exchange (SimpleConversation.name self) m r)%list;
          SimpleConversation.use_llm := SimpleConversation.use_llm self;
          SimpleConversation.llm_ready := SimpleConversation.llm_ready self |},
       Return r)
    /\ (SimpleConversation.llm_ready self = false ->
        r = SimpleConversation.respond_with_rules m).
Proof.
  unfold SimpleConversation.chat.
  destruct (respond_returns
              (SimpleConversation.append_line self ("Customer: " +:+ m)) hf m)
    as (r & -> & Hr).
  exists r. split; [|exact Hr].
  unfold SimpleConversation.append_line, exchange.
  cbn [SimpleConversation.name SimpleConversation.role
       SimpleConversation.conversation SimpleConversation.use_llm
       SimpleConversation.llm_ready].
  now rewrite <- app_assoc.
Qed.

Lemma chats_by_rules hf : forall messages self,
  SimpleConversation.llm_ready self = false ->
  chats self hf messages
  = ({| SimpleConversation.name := SimpleConversation.name self;
        SimpleConversation.role := SimpleConversation.role self;
        SimpleConversation.conversation :=
          (SimpleConversation.conversation self
           ++ ruled_history (SimpleConversation.name self) messages)%list;
        SimpleConversation.use_llm := SimpleConversation.use_llm self;
        SimpleConversation.llm_ready := SimpleConversation.llm_ready self |},
     map (fun m => Return (SimpleConversation.respond_with_rules m)) messages).
Proof.
  induction messages as [|m rest IH]; intros self H.
  - cbn [chats ruled_history map]. rewrite app_nil_r. now destruct self.
  - cbn [chats ruled_history map].
    destruct (chat_spec self hf m) as (r & -> & Hr). rewrite (Hr H).
    rewrite IH by exact H.
    cbn [SimpleConversation.name SimpleConversation.role
         SimpleConversation.conversation SimpleConversation.use_llm
         SimpleConversation.llm_ready].
    now rewrite <- app_assoc.
Qed.

(** Substrings survive appending. *)
Lemma startswith_mono w : forall s t,
  startswith w s = true -> startswith w (s +:+ t) = true.
Proof.
  induction w as [|a w IH]; intros s t H; [reflexivity|].
  destruct s as [|b s]; [discriminate H|].
  change (String b s +:+ t) with (String b (s +:+ t)).
  cbn [startswith] in H |- *.
  apply andb_true_iff in H as [Hab Hw]. now rewrite Hab, (IH s t Hw).
Qed.

Lemma startswith_contains w s : startswith w s = true -> contains w s = true.
Proof. intros H. destruct s; cbn [contains]; now rewrite H. Qed.

Lemma contains_mono w s t :
  contains w s = true -> contains w (s +:+ t) = true.
Proof.
  induction s as [|c s IH]; intros H; cbn [contains] in H;
    apply orb_true_iff in H as [H | H].
  - apply startswith_contains. now apply (startswith_mono w "" t).
  - discriminate.
  - apply startswith_contains. now apply startswith_mono.
  - change (String c s +:+ t) with (String c (s +:+ t)).
    cbn [contains]. rewrite (IH H). apply orb_true_r.
Qed.

Lemma any_in_mono words s t :
  any_in words s = true -> any_in words (s +:+ t) = true.
Proof.
  unfold any_in. rewrite !existsb_exists.
  intros (w & Hin & Hw). exists w. split; [exact Hin | now apply contains_mono].
Qed.

Lemma lower_append s t : lower (s +:+ t) = lower s +:+ lower t.
Proof.
  induction s as [|c s IH]; [reflexivity|].
  change (String c s +:+ t) with (String c (s +:+ t)).
  cbn [lower]. rewrite IH. reflexivity.
Qed.

Lemma join_spaces_app l l' :
  exists t,
    SimpleConversation.join_spaces (l ++ l')%list
    = SimpleConversation.join_spaces l +:+ t.
Proof.
  induction l as [|x l IH].
  - exists (SimpleConversation.join_spaces l'). reflexivity.
  - destruct IH as [t Ht]. destruct l as [|y l].
    + destruct l' as [|z l'].
      * exists "". cbn [app SimpleConversation.join_spaces].
        clear. induction x as [|c x IHx]; [reflexivity|].
        change (String c x +:+ "") with (String c (x +:+ "")). now rewrite <- IHx.
      * exists (" " +:+ SimpleConversation.join_spaces (z :: l')). reflexivity.
    + exists t.
      change (SimpleConversation.join_spaces ((x :: y :: l) ++ l')%list)
        with (x +:+ " " +:+ SimpleConversation.join_spaces ((y :: l) ++ l')%list).
      change (SimpleConversation.join_spaces (x :: y :: l))
        with (x +:+ " " +:+ SimpleConversation.join_spaces (y :: l)).
      rewrite Ht. now rewrite !append_assoc.
Qed.

(** A keyword found in the history is found in any longer history. *)
Lemma history_keeps_keywords words l l' :
  any_in words (lower (SimpleConversation.join_spaces l)) = true ->
  any_in words (lower (SimpleConversation.join_spaces (l ++ l')%list)) = true.
Proof.
  intros H. destruct (join_spaces_app l l') as [t ->].
  rewrite lower_append. now apply any_in_mono.
Qed.

End ConversationFacts.

Import SessionNotions ConversationFacts.

(** [chat] never raises; it appends exactly two lines to the history,
    the customer's message and the agent's response under its name, and
    changes nothing else.  An agent whose LLM is not ready answers by
    rules. *)
Theorem chat_records_the_exchange
    (self : SimpleConversation.ConversationAgent) (hf : SimpleConversation.client)
    (m : string) :
  exists r,
    snd (SimpleConversation.chat self hf m) = Exc.Return r
    /\ SimpleConversation.conversation (fst (SimpleConversation.chat self hf m))
       = (SimpleConversation.conversation self
          ++ ["Customer: " +:+ m; SimpleConversation.name self +:+ ": " +:+ r])%list
    /\ SimpleConversation.name (fst (SimpleConversation.chat self hf m))
       = SimpleConversation.name self
    /\ SimpleConversation.llm_ready (fst (SimpleConversation.chat self hf m))
       = SimpleConversation.llm_ready self
    /\ SimpleConversation.role (fst (SimpleConversation.chat self hf m))
       = SimpleConversation.role self
    /\ SimpleConversation.use_llm (fst (SimpleConversation.chat self hf m))
       = SimpleConversation.use_llm self
    /\ (SimpleConversation.llm_ready self = false ->
        r = SimpleConversation.respond_with_rules m).
Proof.
  destruct (chat_spec self hf m) as (r & -> & Hr).
  exists r. cbn [fst snd SimpleConversation.conversation SimpleConversation.name
                 SimpleConversation.llm_ready SimpleConversation.role
                 SimpleConversation.use_llm].
  repeat split; try reflexivity. exact Hr.
Qed.

(** With the token the script ships with, every agent answers by rules
    whatever it was asked to use: after any series of messages the
    responses are those of [respond_with_rules], the client is never
    consulted, and the history holds the exchanges in order. *)
Theorem shipped_agent_answers_by_rules
    (name role : string) (use_llm client_ok : bool)
    (hf : SimpleConversation.client) (messages : list string) :
  snd (chats (SimpleConversation.new_agent name role use_llm client_ok) hf messages)
  = map (fun m => Exc.Return (SimpleConversation.respond_with_rules m)) messages
  /\ SimpleConversation.conversation
       (fst (chats (SimpleConversation.new_agent name role use_llm client_ok)
                   hf messages))
     = ruled_history name messages
  /\ length (SimpleConversation.conversation
               (fst (chats (SimpleConversation.new_agent name role use_llm client_ok)
                           hf messages)))
     = (2 * length messages)%nat.
Proof.
  assert (Hready : SimpleConversation.llm_ready
                     (SimpleConversation.new_agent name role use_llm client_ok) = false).
  { unfold SimpleConversation.new_agent. cbn. now rewrite andb_false_r. }
  rewrite (chats_by_rules hf messages _ Hready).
  cbn [fst snd SimpleConversation.conversation SimpleConversation.name
       SimpleConversation.new_agent app].
  split; [reflexivity|]. split; [reflexivity|].
  clear. induction messages as [|m rest IH]; [reflexivity|].
  cbn [ruled_history exchange app length]. rewrite IH. lia.
Qed.

(** A BANT criterion met stays met: whatever is said next and however
    it is answered, [analyze_qualification] never takes a check mark
    back. *)
Theorem qualification_is_never_lost
    (self : SimpleConversation.ConversationAgent) (hf : SimpleConversation.client)
    (m : string) :
  let before := SimpleConversation.analyze_qualification self in
  let after :=
    SimpleConversation.analyze_qualification (fst (SimpleConversation.chat self hf m)) in
  (SimpleConversation.Budget before = true -> SimpleConversation.Budget after = true)
  /\ (SimpleConversation.Authority before = true ->
      SimpleConversation.Authority after = true)
  /\ (SimpleConversation.Need before = true -> SimpleConversation.Need after = true)
  /\ (SimpleConversation.Timeline before = true ->
      SimpleConversation.Timeline after = true).
Proof.
  cbn zeta. destruct (chat_spec self hf m) as (r & -> & _).
  unfold SimpleConversation.analyze_qualification.
  cbn [fst SimpleConversation.conversation SimpleConversation.Budget
       SimpleConversation.Authority SimpleConversation.Need
       SimpleConversation.Timeline].
  repeat split; apply history_keeps_keywords.
Qed.

(** A budget named in the first message is still on record after the
    second. *)
Lemma qualification_is_never_lost_witness :
  SimpleConversation.Budget
    (SimpleConversation.analyze_qualification
       (fst (SimpleConversation.chat
               (SimpleConversation.new_agent "Sarah" "Sales Agent" true true)
               (fun _ => Exc.Raise Exc.AttributeError)
               "We have about 50k budget allocated"))) = true
  /\ SimpleConversation.Budget
       (SimpleConversation.analyze_qualification
          (fst (SimpleConversation.chat
                  (fst (SimpleConversation.chat
                          (SimpleConversation.new_agent "Sarah" "Sales Agent" true true)
                          (fun _ => Exc.Raise Exc.AttributeError)
                          "We have about 50k budget allocated"))
                  (fun _ => Exc.Raise Exc.AttributeError)
                  "We need it within 3 months"))) = true.
Proof.
  split; [reflexivity|].
  apply (proj1 (qualification_is_never_lost
                  (fst (SimpleConversation.chat
                          (SimpleConversation.new_agent "Sarah" "Sales Agent" true true)
                          (fun _ => Exc.Raise Exc.AttributeError)
                          "We have about 50k budget allocated"))
                  (fun _ => Exc.Raise Exc.AttributeError)
                  "We need it within 3 months")).
  reflexivity.
Defined.
